(** * AI Tools Blog API: the schema layer and the HTTP handlers

    A shallow embedding of [src/schemas.py] (the Sector, Tool and Comparison
    models) and of [src/main.py] (the handlers [read_root], [test_database],
    [seed_content], [list_sectors], [sector_detail] and [search_tools]), with
    the properties of the specification stated over them.

    Python values are an inductive type, Python dicts are finite maps with
    string keys, the document store is a finite map from collection names to
    lists of documents, and a handler is a function from the store to a result
    and a store. *)

From Stdlib Require Import ZArith String Ascii.
From Stdlib Require Import Floats.PrimFloat Numbers.Cyclic.Int63.Uint63.
From stdpp Require Import gmap strings list fin_maps.

Local Open Scope Z_scope.
Local Set Warnings "-register-all,-inexact-float".

(** ** Python values *)

(** The values that reach the handlers and the models: [None], booleans,
    integers, doubles, text, lists and dicts with string keys. Documents of
    the store are dicts of such values. Python objects of other kinds
    (bytes, bytearrays, tuples, sets and so on) are not among them: a
    statement about every value is a statement about the values of these
    seven kinds. *)
Inductive value :=
| VNone
| VBool (b : bool)
| VInt (z : Z)
| VFloat (f : float)
| VStr (s : string)
| VList (l : list value)
| VDict (d : gmap string value).

Abbreviation dict := (gmap string value).

(** [d.get(k)]: the value under [k], [None] when the key is missing. *)
Definition get (d : dict) (k : string) : value := default VNone (d !! k).

(** [d.get(k, v)]: the value under [k], [v] when the key is missing. *)
Definition get_or (d : dict) (k : string) (v : value) : value := default v (d !! k).

(** Truth value of a dict: a dict is false exactly when it has no key. *)
Definition dict_truthy (d : dict) : bool := negb (bool_decide (dom d = ∅)).

(** ** Exceptions and results *)

(** One entry of a validation error: where (the field, and the index of a
    list item) and what. *)
Inductive loc_item :=
| Field (name : string)
| Index (i : nat).

Inductive error_type :=
| missing
| string_type
| list_type
| float_type
| float_parsing
| less_than_equal
| greater_than_equal
| url_type
| url_parsing
| url_scheme
| url_too_long.

Record line_error := { loc : list loc_item; type : error_type }.

Inductive exn :=
| HTTPException (status_code : Z) (detail : string)
| ValidationError (title : string) (errors : list line_error)
| OperationFailure.

Inductive result (A : Type) :=
| Ok (a : A)
| Raise (e : exn).
Arguments Ok {A} a.
Arguments Raise {A} e.

(** ** Text *)

Module Text.

Definition is_upper (c : ascii) : bool :=
  (65 <=? nat_of_ascii c)%nat && (nat_of_ascii c <=? 90)%nat.
Definition is_lower (c : ascii) : bool :=
  (97 <=? nat_of_ascii c)%nat && (nat_of_ascii c <=? 122)%nat.
Definition is_digit (c : ascii) : bool :=
  (48 <=? nat_of_ascii c)%nat && (nat_of_ascii c <=? 57)%nat.
Definition is_alnum (c : ascii) : bool := is_upper c || is_lower c || is_digit c.

(** A text is a Python [str], a sequence of characters (Unicode code
    points). It is held as a string of bytes, its UTF-8 form; [chars] below
    gives its characters. *)






Fixpoint forallb (f : ascii -> bool) (s : string) : bool :=
  match s with
  | EmptyString => true
  | String c s' => f c && forallb f s'
  end.

Fixpoint existsb (f : ascii -> bool) (s : string) : bool :=
  match s with
  | EmptyString => false
  | String c s' => f c || existsb f s'
  end.

(** [strip_prefix p s]: the rest of [s] after the prefix [p]. *)
Fixpoint strip_prefix (p s : string) : option string :=
  match p, s with
  | EmptyString, _ => Some s
  | String _ _, EmptyString => None
  | String a p', String b s' => if Ascii.eqb a b then strip_prefix p' s' else None
  end.

(** [split_at f s]: the longest prefix of [s] without a character
    satisfying [f], and the rest (which starts at that character). *)
Fixpoint split_at (f : ascii -> bool) (s : string) : string * string :=
  match s with
  | EmptyString => (EmptyString, EmptyString)
  | String c s' =>
      if f c then (EmptyString, s)
      else let '(a, b) := split_at f s' in (String c a, b)
  end.

(** [split c s]: the pieces of [s] between the occurrences of [c]. *)
Fixpoint split (c : ascii) (s : string) : list string :=
  match s with
  | EmptyString => [EmptyString]
  | String a s' =>
      match split c s' with
      | [] => [EmptyString]
      | x :: xs => if Ascii.eqb a c then EmptyString :: x :: xs else String a x :: xs
      end
  end.

(** *** The characters of a text *)

Definition byte (c : ascii) : N := N_of_ascii c.

Fixpoint bytes (s : string) : list N :=
  match s with
  | EmptyString => []
  | String c s' => byte c :: bytes s'
  end.

Definition join (l : list string) : string := foldr String.append EmptyString l.

(** A continuation byte of UTF-8: [10xxxxxx]. *)
Definition is_continuation (c : ascii) : bool :=
  ((128 <=? byte c) && (byte c <? 192))%N.

Definition continuation_at (i : nat) (s : string) : bool :=
  match String.get i s with
  | Some c => is_continuation c
  | None => false
  end.

Definition byte_at (i : nat) (s : string) : N :=
  match String.get i s with
  | Some c => byte c
  | None => 0%N
  end.

(** [width a s]: how many of the bytes of [s], which follow the byte [a],
    belong to the character that [a] starts. A lead byte [110xxxxx],
    [1110xxxx] or [11110xxx] takes one, two or three continuation bytes,
    when they are there and the character is neither over-long, nor a
    surrogate, nor above U+10FFFF; any other byte stands alone. *)
Definition width (a : ascii) (s : string) : nat :=
  let a := byte a in
  let b := byte_at 0 s in
  (if a <? 194 then 0%nat
   else if a <? 224 then
     if continuation_at 0 s then 1%nat else 0%nat
   else if a <? 240 then
     if continuation_at 0 s && continuation_at 1 s
        && (negb (a =? 224) || (160 <=? b)) && (negb (a =? 237) || (b <? 160))
     then 2%nat else 0%nat
   else if a <? 245 then
     if continuation_at 0 s && continuation_at 1 s && continuation_at 2 s
        && (negb (a =? 240) || (144 <=? b)) && (negb (a =? 244) || (b <? 144))
     then 3%nat else 0%nat
   else 0%nat)%N.

(** The characters of a text, each as its bytes. The continuation bytes a
    lead byte takes are the first characters of what follows it, where each
    of them stands alone. *)
Fixpoint chars (s : string) : list string :=
  match s with
  | EmptyString => []
  | String a s' =>
      let rest := chars s' in
      String a (join (take (width a s') rest)) :: drop (width a s') rest
  end.

(** The code point of a character. A byte that is not part of a
    well-formed character stands for itself, as a code point U+DC80 to
    U+DCFF, which no text of the program holds. *)
Definition code (c : string) : N :=
  (match bytes c with
   | [a] => if a <? 128 then a else 56320 + a
   | [a; b] => (a - 192) * 64 + (b - 128)
   | [a; b; c] => (a - 224) * 4096 + (b - 128) * 64 + (c - 128)
   | [a; b; c; d] => (a - 240) * 262144 + (b - 128) * 4096 + (c - 128) * 64 + (d - 128)
   | _ => 65533
   end)%N.

(** The code points of a text. *)
Definition decode (s : string) : list N := code <$> chars s.

(** [s[:n]]: the first [n] characters of a text. *)
Definition up_to (n : nat) (s : string) : string := join (take n (chars s)).

(** [has_prefix p s]: the characters [p] are the first characters of [s]. *)
Fixpoint has_prefix (p s : list N) : bool :=
  match p, s with
  | [], _ => true
  | _ :: _, [] => false
  | a :: p', b :: s' => (a =? b)%N && has_prefix p' s'
  end.

(** [has_run p s]: the characters [p] occur in [s], one after the other. *)
Fixpoint has_run (p s : list N) : bool :=
  has_prefix p s ||
  match s with
  | [] => false
  | _ :: s' => has_run p s'
  end.

End Text.

(** ** The regular expressions of the store's query language *)

(** The store matches a [$regex] pattern with a Perl-compatible engine, on
    the characters of the pattern and of the text. The fragment of the
    pattern language given here is a sequence of atoms: a character that is
    not a metacharacter stands for itself, [.] stands for any character but
    the line feed, and a backslash before a non-alphanumeric ASCII character
    makes that character literal. A pattern with any other operator
    (anchors, classes, groups, alternation, quantifiers) is outside the
    fragment: [compile] gives [None], and the engine's verdict on it is a
    parameter of the development ([Library] below). Caseless matching
    compares characters by their case folding [fold], which [Library] gives. *)
Module Regex.

Inductive atom :=
| Lit (c : N)
| Any.

Record t := { atoms : list atom; caseless : bool }.

(** The characters with a special meaning outside a character class. *)
Definition metacharacters : string := "\^$.[|()?*+{".

Definition is_meta (c : N) : bool :=
  Text.existsb (λ m, Text.byte m =? c)%N metacharacters.

(** A character that may stand for itself: any character of a text but the
    null character, which a pattern cannot hold. The code points U+D800 to
    U+DFFF are no characters of a text. *)
Definition is_plain (c : N) : bool :=
  ((0 <? c) && ((c <? 55296) || ((57343 <? c) && (c <=? 1114111))))%N.

Definition is_alnum (c : N) : bool :=
  (((48 <=? c) && (c <=? 57)) || ((65 <=? c) && (c <=? 90))
   || ((97 <=? c) && (c <=? 122)))%N.

Definition escapable (c : N) : bool :=
  ((0 <? c) && (c <? 128))%N && negb (is_alnum c).

Fixpoint parse (s : list N) : option (list atom) :=
  match s with
  | [] => Some []
  | c :: s' =>
      if (c =? Text.byte "\")%N then
        match s' with
        | [] => None
        | e :: s'' => if escapable e then cons (Lit e) <$> parse s'' else None
        end
      else if (c =? Text.byte ".")%N then cons Any <$> parse s'
      else if is_meta c || negb (is_plain c) then None
      else cons (Lit c) <$> parse s'
  end.

(** [$options]: empty, or [i] for caseless matching. *)
Definition parse_options (o : string) : option bool :=
  if String.eqb o "" then Some false
  else if String.eqb o "i" then Some true
  else None.

Definition compile (pattern options : string) : option t :=
  a ← parse (Text.decode pattern);
  i ← parse_options options;
  Some {| atoms := a; caseless := i |}.

Section Matching.

(** The case folding of a character. *)
Variable fold : N → N.

Definition atom_matches (i : bool) (a : atom) (c : N) : bool :=
  match a with
  | Lit x => if i then (fold x =? fold c)%N else (x =? c)%N
  | Any => negb (c =? 10)%N
  end.

(** The atoms match the first characters of the subject. *)
Fixpoint match_here (i : bool) (r : list atom) (s : list N) : bool :=
  match r, s with
  | [], _ => true
  | _ :: _, [] => false
  | a :: r', c :: s' => atom_matches i a c && match_here i r' s'
  end.

Fixpoint search_from (i : bool) (r : list atom) (s : list N) : bool :=
  match_here i r s ||
  match s with
  | [] => false
  | _ :: s' => search_from i r s'
  end.

(** An unanchored pattern matches when it matches at some position. *)
Definition search (r : t) (s : string) : bool :=
  search_from (caseless r) (atoms r) (Text.decode s).

End Matching.

End Regex.

(** ** URLs *)

(** The [HttpUrl] type of the validation library parses its input as a URL
    with scheme [http] or [https]. The fragment modelled here is
    [http://host] or [https://host], followed by nothing or by a path of
    letters, digits, [/], [_] and [-], where the host is made of labels of
    lower-case letters and digits separated by dots, the last one starting
    with a letter, and the whole is at most 2083 characters long. Such a
    text is a URL; the library keeps it in serialised form, which has the
    path [/] when the input has none. Any other text is outside the
    fragment: [parse] gives [None], and the library's verdict on it is a
    parameter of the development ([Library] below). *)
Module HttpUrl.

Record t := { text : string }.

Definition max_length : nat := 2083.

Definition label_ok (l : string) : bool :=
  negb (String.eqb l "") && Text.forallb (fun c => Text.is_lower c || Text.is_digit c) l.

Definition starts_with_letter (l : string) : bool :=
  match l with
  | EmptyString => false
  | String c _ => Text.is_lower c
  end.

Definition host_ok (h : string) : bool :=
  let labels := Text.split "." h in
  forallb label_ok labels &&
  match last labels with
  | Some l => starts_with_letter l
  | None => false
  end.

Definition path_char (c : ascii) : bool :=
  Text.is_alnum c || Ascii.eqb c "/" || Ascii.eqb c "_" || Ascii.eqb c "-".

Definition after_scheme (s : string) : option string :=
  match Text.strip_prefix "https://" s with
  | Some r => Some r
  | None => Text.strip_prefix "http://" s
  end.

Definition parse (s : string) : option t :=
  if (String.length s <=? max_length)%nat then
    r ← after_scheme s;
    let '(host, path) := Text.split_at (Ascii.eqb "/") r in
    if host_ok host && Text.forallb path_char path then
      Some {| text := if String.eqb path "" then (s +:+ "/") else s |}
    else None
  else None.

End HttpUrl.

(** ** What the libraries do outside the fragments *)

(** The verdicts of the regular-expression engine and of the URL parser on
    inputs outside the fragments above, the case folding of the characters
    beyond ASCII, the conversion of text to a double and the text form of a
    value that is not text: every definition and theorem below holds for
    each choice of them. *)
Class Library := {
  (** the engine on a pattern outside the fragment: [None] when it rejects
      the pattern, else the texts the pattern is found in *)
  regex_beyond : string → string → option (string → bool);
  (** the case folding of a character beyond ASCII (the Unicode table of
      the engine) *)
  fold_beyond : N → N;
  (** the URL parser on a text outside the fragment *)
  url_beyond : string → option HttpUrl.t;
  (** the kind of error the URL parser reports for a text it refuses *)
  url_refusal : string → error_type;
  (** the conversion of text to a double, [None] when the text is not a number *)
  float_of_str : string → option float;
  (** [str(v)] for a value that is neither text nor [None] *)
  str_beyond : value → string
}.

(** A part of the Unicode case folding beyond ASCII: the capital letters
    of Latin-1, of Greek and of Cyrillic, and the signs whose folding is a
    letter of another block (the micro sign, the long s, the final sigma,
    the capital sharp s, the Kelvin sign and the Angstrom sign). Every other
    character is left as it is. *)
Definition fold_letters (c : N) : N :=
  (if (192 <=? c) && (c <=? 222) && negb (c =? 215) then c + 32
   else if c =? 181 then 956
   else if c =? 383 then 115
   else if (913 <=? c) && (c <=? 939) && negb (c =? 930) then c + 32
   else if c =? 962 then 963
   else if (1024 <=? c) && (c <=? 1039) then c + 80
   else if (1040 <=? c) && (c <=? 1071) then c + 32
   else if c =? 7838 then 223
   else if c =? 8490 then 107
   else if c =? 8491 then 229
   else c)%N.

(** The library that rejects whatever is outside the fragments, with the
    part of the case folding above. It is the library of the examples. *)
Definition strict_library : Library := {|
  regex_beyond := λ _ _, None;
  fold_beyond := fold_letters;
  url_beyond := λ _, None;
  url_refusal := λ _, url_parsing;
  float_of_str := λ _, None;
  str_beyond := λ _, ""%string
|}.

(** The case folding of a character: [A-Z] to [a-z], every other ASCII
    character unchanged, a character beyond ASCII as the engine's table has
    it. Two characters match without regard to case when their foldings are
    the same. *)
Definition fold_case `{Library} (c : N) : N :=
  (if c <? 128 then (if (65 <=? c) && (c <=? 90) then c + 32 else c)
   else fold_beyond c)%N.

Definition regex_matcher `{Library} (pattern options : string) : option (string → bool) :=
  match Regex.compile pattern options with
  | Some r => Some (Regex.search fold_case r)
  | None => regex_beyond pattern options
  end.

Definition parse_url `{Library} (s : string) : option HttpUrl.t :=
  match HttpUrl.parse s with
  | Some u => Some u
  | None => url_beyond s
  end.

(** [str(v)] *)
Definition str `{Library} (v : value) : string :=
  match v with
  | VStr s => s
  | VNone => "None"
  | _ => str_beyond v
  end.

(** ** Field validators of the schema library *)

(** A field is valid with its value, or invalid with the entries it adds to
    the validation error. *)
Inductive checked (A : Type) :=
| Valid (a : A)
| Invalid (errors : list line_error).
Arguments Valid {A} a.
Arguments Invalid {A} errors.

Module Validator.

Definition t (A : Type) : Type := list loc_item → value → checked A.

Definition fail {A} (l : list loc_item) (e : error_type) : checked A :=
  Invalid [{| loc := l; type := e |}].

Definition map {A B} (f : A → B) (c : checked A) : checked B :=
  match c with
  | Valid a => Valid (f a)
  | Invalid e => Invalid e
  end.

(** The fields of a model are all validated, and the errors of all of
    them are reported, in the order of the fields. *)
Definition ap {A B} (f : checked (A → B)) (x : checked A) : checked B :=
  match f, x with
  | Valid g, Valid a => Valid (g a)
  | Valid _, Invalid e => Invalid e
  | Invalid e, Valid _ => Invalid e
  | Invalid e, Invalid e' => Invalid (e ++ e')
  end.

(** [str]: of the values above only text is accepted; [None], a boolean, a
    number, a list and a dict are refused as not being a string. (The
    library converts bytes and bytearrays to text; they are not among the
    values.) *)
Definition str : t string := λ l v,
  match v with
  | VStr s => Valid s
  | _ => fail l string_type
  end.

(** [Optional[X]]: [None], or a valid [X]. *)
Definition optional {A} (f : t A) : t (option A) := λ l v,
  match v with
  | VNone => Valid None
  | _ => map Some (f l v)
  end.

Fixpoint items {A} (f : t A) (l : list loc_item) (i : nat) (vs : list value)
  : checked (list A) :=
  match vs with
  | [] => Valid []
  | v :: vs' => ap (map cons (f (l ++ [Index i]) v)) (items f l (S i) vs')
  end.

(** [List[X]]: a list whose items are all valid. *)
Definition list_of {A} (f : t A) : t (list A) := λ l v,
  match v with
  | VList vs => items f l 0 vs
  | _ => fail l list_type
  end.

(** [HttpUrl]: text that parses as a URL; a text that does not is
    reported with the kind of error the parser gives for it. *)
Definition HttpUrl `{Library} : t HttpUrl.t := λ l v,
  match v with
  | VStr s =>
      match parse_url s with
      | Some u => Valid u
      | None => fail l (url_refusal s)
      end
  | _ => fail l url_type
  end.

(** The double of a small integer. *)
Definition float_of_small (z : Z) : float :=
  if z <? 0 then PrimFloat.opp (PrimFloat.of_uint63 (Uint63.of_Z (- z)))
  else PrimFloat.of_uint63 (Uint63.of_Z z).

(** The integers that round to a finite double; the conversion of any
    other integer overflows. *)
Definition int_fits_float (z : Z) : bool := Z.abs z <? 2 ^ 1024 - 2 ^ 970.

(** The bounds [le] first, then [ge], on a double. A comparison with a
    NaN is false, so a NaN violates [le]. *)
Definition bounded (ge le : Z) (l : list loc_item) (f : float) : checked float :=
  if negb (PrimFloat.leb f (float_of_small le)) then fail l less_than_equal
  else if negb (PrimFloat.leb (float_of_small ge) f) then fail l greater_than_equal
  else Valid f.

(** [float] with [Field(ge=.., le=..)], for bounds that are small
    integers. A double is taken as it is, a boolean as 0.0 or 1.0, text is
    converted. An integer is converted to the nearest double, which fails
    when it overflows; the conversion is monotone and exact on the bounds
    and between them, so the bounds are decided on the integer itself, and
    the value is computed only for an integer within them. *)
Definition float_between `{Library} (ge le : Z) : t float := λ l v,
  match v with
  | VFloat f => bounded ge le l f
  | VBool b => bounded ge le l (if b then 1%float else 0%float)
  | VStr s =>
      match float_of_str s with
      | Some f => bounded ge le l f
      | None => fail l float_parsing
      end
  | VInt z =>
      if negb (int_fits_float z) then fail l float_type
      else if negb (z <=? le) then fail l less_than_equal
      else if negb (ge <=? z) then fail l greater_than_equal
      else Valid (float_of_small z)
  | _ => fail l float_type
  end.

(** [Field(...)]: a required field. *)
Definition required {A} (f : t A) (kwargs : dict) (k : string) : checked A :=
  match kwargs !! k with
  | Some v => f [Field k] v
  | None => fail [Field k] missing
  end.

(** [Field(None)], [Field(default_factory=list)]: a field with a default,
    which is not validated. *)
Definition defaulted {A} (f : t A) (kwargs : dict) (k : string) (d : A) : checked A :=
  match kwargs !! k with
  | Some v => f [Field k] v
  | None => Valid d
  end.

(** The construction of a model returns the instance, or raises the
    validation error with the entries of all fields. *)
Definition construct {A} (title : string) (c : checked A) : result A :=
  match c with
  | Valid a => Ok a
  | Invalid e => Raise (ValidationError title e)
  end.

End Validator.

Declare Scope checked_scope.
Delimit Scope checked_scope with checked.
Notation "f <*> x" := (Validator.ap f x) (at level 62, left associativity) : checked_scope.

(** ** The models of [schemas.py] *)

(** [model_dump()] of a model: the dict of its fields. *)
Class BaseModel (T : Type) := { model_dump : T → dict }.

Definition dump_optional {A} (f : A → value) (o : option A) : value :=
  match o with
  | Some a => f a
  | None => VNone
  end.

Module Sector.

Record t := {
  name : string;
  slug : string;
  description : option string
}.

(** The call of [Sector] on keyword arguments. *)
Definition new (kwargs : dict) : result t :=
  Validator.construct "Sector"
    (Valid Build_t
      <*> Validator.required Validator.str kwargs "name"
      <*> Validator.required Validator.str kwargs "slug"
      <*> Validator.defaulted (Validator.optional Validator.str) kwargs "description" None
    )%checked.

Definition dump (s : t) : dict :=
  {[ "name" := VStr (name s);
     "slug" := VStr (slug s);
     "description" := dump_optional VStr (description s) ]}.

End Sector.

Module Tool.

Record t := {
  name : string;
  sector_slug : string;
  summary : string;
  strengths : list string;
  limitations : list string;
  website : option HttpUrl.t;
  pricing : option string;
  rating : option float
}.

(** The call of [Tool] on keyword arguments. *)
Definition new `{Library} (kwargs : dict) : result t :=
  Validator.construct "Tool"
    (Valid Build_t
      <*> Validator.required Validator.str kwargs "name"
      <*> Validator.required Validator.str kwargs "sector_slug"
      <*> Validator.required Validator.str kwargs "summary"
      <*> Validator.defaulted (Validator.list_of Validator.str) kwargs "strengths" []
      <*> Validator.defaulted (Validator.list_of Validator.str) kwargs "limitations" []
      <*> Validator.defaulted (Validator.optional Validator.HttpUrl) kwargs "website" None
      <*> Validator.defaulted (Validator.optional Validator.str) kwargs "pricing" None
      <*> Validator.defaulted (Validator.optional (Validator.float_between 0 5)) kwargs "rating" None
    )%checked.

(** The dict of the fields. The website is held as the text of the URL,
    the form in which a URL is a value of a document. *)
Definition dump (x : t) : dict :=
  {[ "name" := VStr (name x);
     "sector_slug" := VStr (sector_slug x);
     "summary" := VStr (summary x);
     "strengths" := VList (VStr <$> strengths x);
     "limitations" := VList (VStr <$> limitations x);
     "website" := dump_optional (λ u, VStr (HttpUrl.text u)) (website x);
     "pricing" := dump_optional VStr (pricing x);
     "rating" := dump_optional VFloat (rating x) ]}.

End Tool.

Module Comparison.

Record t := {
  sector_slug : string;
  headline : string;
  intro : option string;
  top_tools : list string
}.

(** The call of [Comparison] on keyword arguments. *)
Definition new (kwargs : dict) : result t :=
  Validator.construct "Comparison"
    (Valid Build_t
      <*> Validator.required Validator.str kwargs "sector_slug"
      <*> Validator.required Validator.str kwargs "headline"
      <*> Validator.defaulted (Validator.optional Validator.str) kwargs "intro" None
      <*> Validator.defaulted (Validator.list_of Validator.str) kwargs "top_tools" []
    )%checked.

Definition dump (c : t) : dict :=
  {[ "sector_slug" := VStr (sector_slug c);
     "headline" := VStr (headline c);
     "intro" := dump_optional VStr (intro c);
     "top_tools" := VList (VStr <$> top_tools c) ]}.

End Comparison.

#[export] Instance Sector_model : BaseModel Sector.t := {| model_dump := Sector.dump |}.
#[export] Instance Tool_model : BaseModel Tool.t := {| model_dump := Tool.dump |}.
#[export] Instance Comparison_model : BaseModel Comparison.t := {| model_dump := Comparison.dump |}.

(** ** The document store *)

(** A collection is the list of its documents in insertion order; the store
    maps the name of a collection to it, and a collection that was never
    written to is empty. The handlers reach the store through the handle
    [db], which is [None] when the store is not configured. Every operation
    on a collection is recorded in a log, so that what a handler read and
    wrote can be stated. *)
Module Mongo.

Inductive condition :=
| Eq (s : string)
| Regex (pattern options : string).

(** The queries of the handlers: [{}], [{k: text}], [{k: {"$regex": p,
    "$options": o}}] and [{"$or": [...]}]. *)
Inductive query :=
| All
| Where (k : string) (c : condition)
| Or (fs : list query).

Inductive op :=
| OpFind (collection : string) (f : query)
| OpFindOne (collection : string) (f : query)
| OpInsertOne (collection : string) (d : dict).

Record state := {
  collections : gmap string (list dict);
  oplog : list op
}.

(** The handle [db] of [database.py]: the driver's object for the database
    of the given name. The handlers take it as an argument, [None] when the
    store is not configured. *)
Record Database := { database_name : string }.

Definition collection (st : state) (c : string) : list dict :=
  default [] (collections st !! c).

(** A condition on text holds of a field that is a text satisfying it, or
    a list with such a text among its items. *)
Definition value_matches (p : string → bool) (v : value) : bool :=
  match v with
  | VStr s => p s
  | VList l => existsb (λ x, match x with VStr s => p s | _ => false end) l
  | _ => false
  end.

Definition field_matches (p : string → bool) (k : string) (d : dict) : bool :=
  match d !! k with
  | Some v => value_matches p v
  | None => false
  end.

(** The documents a query selects; [None] when the store rejects the
    query (a pattern the engine rejects, an empty [$or]). *)
Fixpoint selects `{Library} (f : query) : option (dict → bool) :=
  match f with
  | All => Some (λ _, true)
  | Where k (Eq s) => Some (field_matches (String.eqb s) k)
  | Where k (Regex p o) => m ← regex_matcher p o; Some (field_matches m k)
  | Or [] => None
  | Or fs => ps ← mapM selects fs; Some (λ d, existsb (λ p, p d) ps)
  end.

(** Computations on the store. *)
Definition M (A : Type) : Type := state → result A * state.

Definition ret {A} (a : A) : M A := λ st, (Ok a, st).

Definition raise {A} (e : exn) : M A := λ st, (Raise e, st).

Definition bind {A B} (m : M A) (k : A → M B) : M B := λ st,
  match m st with
  | (Ok a, st') => k a st'
  | (Raise e, st') => (Raise e, st')
  end.

Definition lift {A} (r : result A) : M A := λ st, (r, st).

Definition record (o : op) : M unit := λ st,
  (Ok tt, {| collections := collections st; oplog := oplog st ++ [o] |}).

(** [list(db[c].find(f))] *)
Definition find `{Library} (db : Database) (c : string) (f : query) : M (list dict) :=
  bind (record (OpFind c f)) (λ _ st,
    match selects f with
    | Some p => (Ok (List.filter p (collection st c)), st)
    | None => (Raise OperationFailure, st)
    end).

(** [db[c].find_one(f)]: the first document selected, or [None]. *)
Definition find_one `{Library} (db : Database) (c : string) (f : query)
  : M (option dict) :=
  bind (record (OpFindOne c f)) (λ _ st,
    match selects f with
    | Some p => (Ok (List.find p (collection st c)), st)
    | None => (Raise OperationFailure, st)
    end).

(** [db[c].insert_one(d)]: the document is added at the end. The
    identifier the store gives to the document is left out: documents are
    described up to it. *)
Definition insert_one (db : Database) (c : string) (d : dict) : M unit :=
  bind (record (OpInsertOne c d)) (λ _ st,
    (Ok tt, {| collections := <[c := collection st c ++ [d]]> (collections st);
               oplog := oplog st |})).

(** Modelled from the spec: the truth value of the handle [db] that
    [database.py] binds, a file that is not among the sources. The
    specification has [GET /sectors] list the documents of a configured
    store, so the handle of a configured store counts as true. *)
Definition database_bool (db : Database) : M bool := ret true.

(** [for x in l: body(x)] *)
Fixpoint for_each {A} (l : list A) (body : A → M unit) : M unit :=
  match l with
  | [] => ret tt
  | x :: l' => bind (body x) (λ _, for_each l' body)
  end.

(** The evaluation of a list display, item by item. *)
Fixpoint sequence {A} (l : list (result A)) : result (list A) :=
  match l with
  | [] => Ok []
  | r :: l' =>
      match r with
      | Ok a =>
          match sequence l' with
          | Ok al => Ok (a :: al)
          | Raise e => Raise e
          end
      | Raise e => Raise e
      end
  end.

End Mongo.

Import Mongo.

Declare Scope M_scope.
Delimit Scope M_scope with M.
Notation "x ← y ; z" := (bind y (λ x, z))
  (at level 20, y at level 100, z at level 200, only parsing) : M_scope.
Notation "x ;; z" := (bind x (λ _, z))
  (at level 100, z at level 200, only parsing, right associativity) : M_scope.
Local Open Scope M_scope.

(** Modelled from the spec: [create_document] of [database.py], which is not
    among the sources. The seed operation "inserts a fixed, hardcoded set of
    records": the call inserts the record, as the dict of its fields, into
    the named collection. *)
Definition create_document {T} `{BaseModel T} (db : Database)
    (collection_name : string) (data : T) : M unit :=
  insert_one db collection_name (model_dump data).

(** Modelled from the spec: [get_documents] of [database.py], which is not
    among the sources. The sector listing "lists all Sector documents": the
    call returns all documents of the named collection. *)
Definition get_documents `{Library} (db : Database) (collection_name : string)
  : M (list dict) :=
  find db collection_name All.

(** ** The handlers of [main.py] *)

Definition list_truthy {A} (l : list A) : bool :=
  match l with
  | [] => false
  | _ :: _ => true
  end.

Definition strs (l : list string) : value := VList (VStr <$> l).

(** The calls of the three constructors as they are written in
    [seed_content], with their keyword arguments. *)
Definition Sector_ (name slug description : string) : result Sector.t :=
  Sector.new {[ "name" := VStr name; "slug" := VStr slug;
                "description" := VStr description ]}.

Definition Tool_ `{Library} (name sector_slug summary : string)
    (strengths limitations : list string) (website pricing : string)
    (rating : float) : result Tool.t :=
  Tool.new {[ "name" := VStr name; "sector_slug" := VStr sector_slug;
              "summary" := VStr summary; "strengths" := strs strengths;
              "limitations" := strs limitations; "website" := VStr website;
              "pricing" := VStr pricing; "rating" := VFloat rating ]}.

Definition Comparison_ (sector_slug headline intro : string)
    (top_tools : list string) : result Comparison.t :=
  Comparison.new {[ "sector_slug" := VStr sector_slug; "headline" := VStr headline;
                    "intro" := VStr intro; "top_tools" := strs top_tools ]}.

Definition seed_sectors : list (result Sector.t) := [
  Sector_ "Marketing" "marketing" "Campaigns, content, SEO";
  Sector_ "Sales" "sales" "Prospecting and enablement";
  Sector_ "Customer Support" "support" "Helpdesk and chatbots";
  Sector_ "Software Development" "engineering" "Code assistants and DevOps";
  Sector_ "Design" "design" "Images, video, UI/UX"
]%string.

Definition seed_tools `{Library} : list (result Tool.t) := [
  Tool_ "Jasper" "marketing" "AI copy for ads and blogs" ["Templates"; "Brand voice"]
    ["Price"] "https://www.jasper.ai" "From $39/mo" 4.2%float;
  Tool_ "HubSpot AI" "marketing" "AI features inside HubSpot" ["Integrated"]
    ["Ecosystem lock-in"] "https://www.hubspot.com" "Tiered" 4.0%float;
  Tool_ "Apollo AI" "sales" "Prospecting with AI signals" ["Data"]
    ["Learning curve"] "https://www.apollo.io" "Freemium" 4.3%float;
  Tool_ "Gong" "sales" "Revenue intelligence" ["Call analysis"]
    ["Enterprise pricing"] "https://www.gong.io" "Quote-based" 4.5%float;
  Tool_ "Intercom Fin" "support" "AI chatbot for support" ["Answers from docs"]
    ["Requires good KB"] "https://www.intercom.com" "Add-on" 4.4%float;
  Tool_ "Zendesk AI" "support" "AI assist in helpdesk" ["Workflows"]
    ["Add-on cost"] "https://www.zendesk.com" "Add-on" 4.1%float;
  Tool_ "GitHub Copilot" "engineering" "Code completion and chat" ["IDE integration"]
    ["Best with popular langs"] "https://github.com/features/copilot" "$10-$19/mo"
    4.7%float;
  Tool_ "OpenAI o1" "engineering" "Reasoning models for complex tasks" ["Reasoning"]
    ["Cost"] "https://openai.com" "Usage-based" 4.6%float;
  Tool_ "Midjourney" "design" "Generative images" ["Quality"]
    ["Discord UX"] "https://www.midjourney.com" "From $10/mo" 4.6%float;
  Tool_ "Figma AI" "design" "Generate and edit UI" ["Design-native"]
    ["Early features"] "https://www.figma.com" "Included" 4.2%float
]%string.

Definition seed_comparisons : list (result Comparison.t) := [
  Comparison_ "marketing" "Best AI Tools for Marketing in 2025"
    "We tested top tools for content, SEO, and campaigns." ["Jasper"; "HubSpot AI"];
  Comparison_ "sales" "Top AI Tools for Sales Teams"
    "Prospecting, call analysis, and forecasting." ["Gong"; "Apollo AI"];
  Comparison_ "support" "AI for Customer Support"
    "Bots, deflection, and agent assistance." ["Intercom Fin"; "Zendesk AI"];
  Comparison_ "engineering" "AI for Software Development"
    "Code completion, reviews, and reasoning." ["GitHub Copilot"; "OpenAI o1"];
  Comparison_ "design" "AI for Designers"
    "From ideas to assets." ["Midjourney"; "Figma AI"]
]%string.

(** [POST /seed] *)
Definition seed_content `{Library} (db : option Database) : M value :=
  match db with
  | None => raise (HTTPException 500 "Database not configured")
  | Some db =>
      existing_sectors ← find db "sector" All;
      (if negb (list_truthy existing_sectors) then
         sectors ← lift (sequence seed_sectors);
         for_each sectors (create_document db "sector")
       else ret tt);;
      existing_tools ← find db "tool" All;
      (if negb (list_truthy existing_tools) then
         tools ← lift (sequence seed_tools);
         for_each tools (create_document db "tool")
       else ret tt);;
      existing_comparisons ← find db "comparison" All;
      (if negb (list_truthy existing_comparisons) then
         comps ← lift (sequence seed_comparisons);
         for_each comps (create_document db "comparison")
       else ret tt);;
      ret (VDict {[ "status" := VStr "ok" ]})
  end.

Definition sector_item `{Library} (d : dict) : value :=
  VDict {[ "id" := VStr (str (get d "_id"));
           "name" := get d "name";
           "slug" := get d "slug";
           "description" := get d "description" ]}.

(** [GET /sectors] *)
Definition list_sectors `{Library} (db : option Database) : M value :=
  docs ← match db return M (list dict) with
         | None => ret []
         | Some h =>
             b ← database_bool h;
             if b then get_documents h "sector" else ret []
         end;
  ret (VList (sector_item <$> docs)).

Definition sector_view (sector : dict) : value :=
  VDict {[ "name" := get sector "name";
           "slug" := get sector "slug";
           "description" := get sector "description" ]}.

Definition tool_view (t : dict) : value :=
  VDict {[ "name" := get t "name";
           "summary" := get t "summary";
           "strengths" := get_or t "strengths" (VList []);
           "limitations" := get_or t "limitations" (VList []);
           "website" := get t "website";
           "pricing" := get t "pricing";
           "rating" := get t "rating" ]}.

Definition comparison_view (comparison : dict) : value :=
  VDict {[ "headline" := get comparison "headline";
           "intro" := get comparison "intro";
           "top_tools" := get_or comparison "top_tools" (VList []) ]}.

(** [x and y] for [x] the result of [find_one]: [x] itself when it is
    [None] or a dict without keys, else [y]. *)
Definition and_then (x : option dict) (y : dict → value) : value :=
  match x with
  | None => VNone
  | Some d => if dict_truthy d then y d else VDict d
  end.

(** [not x] for [x] the result of [find_one]: [x] is [None] or a dict
    without keys; otherwise [x] is the dict found. *)
Definition found (x : option dict) : option dict :=
  match x with
  | None => None
  | Some d => if dict_truthy d then Some d else None
  end.

(** [GET /sectors/{slug}] *)
Definition sector_detail `{Library} (db : option Database) (slug : string) : M value :=
  match db with
  | None => raise (HTTPException 500 "Database not configured")
  | Some db =>
      sector ← find_one db "sector" (Where "slug" (Eq slug));
      match found sector with
      | None => raise (HTTPException 404 "Sector not found")
      | Some sector =>
          tools ← find db "tool" (Where "sector_slug" (Eq slug));
          comparison ← find_one db "comparison" (Where "sector_slug" (Eq slug));
          ret (VDict {[ "sector" := sector_view sector;
                        "tools" := VList (tool_view <$> tools);
                        "comparison" := and_then comparison comparison_view ]})
      end
  end.

Record SearchQuery := { q : string }.

Definition search_view (t : dict) : value :=
  VDict {[ "name" := get t "name";
           "sector_slug" := get t "sector_slug";
           "summary" := get t "summary";
           "rating" := get t "rating";
           "website" := get t "website" ]}.

(** [POST /search] *)
Definition search_tools `{Library} (db : option Database) (query : SearchQuery) : M value :=
  match db with
  | None => ret (VDict {[ "results" := VList [] ]})
  | Some db =>
      let pattern := Regex (q query) "i" in
      tools ← find db "tool" (Or [Where "name" pattern; Where "summary" pattern;
                                  Where "sector_slug" pattern]);
      ret (VDict {[ "results" := VList (search_view <$> tools) ]})
  end.

(** ** Runs on concrete stores *)

Definition empty_store : state := {| collections := ∅; oplog := [] |}.

Definition the_db : Database := {| database_name := "blog" |}.

(** ** The diagnostic handler of [main.py] *)

(** What [db.list_collection_names()] does when the handler calls it: it
    returns the names of the collections, or raises an exception [e], given
    here by its text [str(e)]. *)
Inductive listing :=
| Names (names : list string)
| ListingFails (message : string).

(** [os.getenv(k)] on the environment of the process. *)
Definition getenv (environ : gmap string string) (k : string) : option string :=
  environ !! k.

(** Truth value of the result of [os.getenv]: a variable that is set to a
    text that is not empty. *)
Definition env_truthy (x : option string) : bool :=
  match x with
  | Some s => negb (String.eqb s "")
  | None => false
  end.

(** [x or y] for [x] the result of [os.getenv]. *)
Definition env_or (x : option string) (y : string) : string :=
  match x with
  | Some s => if String.eqb s "" then y else s
  | None => y
  end.

(** [GET /test]. The response is a dict that the handler fills step by
    step. The outer handler of exceptions guards calls that do not raise
    ([os.getenv] and the assignments), so its branch is not reached. *)
Definition test_database (db : option Database) (environ : gmap string string)
    (list_collection_names : listing) : dict :=
  let response : dict :=
    {[ "backend" := VStr "✅ Running";
       "database" := VStr "❌ Not Available";
       "database_url" := VNone;
       "database_name" := VNone;
       "connection_status" := VStr "Not Connected";
       "collections" := VList [] ]} in
  match db with
  | Some _ =>
      let response := <["database" := VStr "✅ Available"]> response in
      let response :=
        <["database_url" :=
            VStr (if env_truthy (getenv environ "DATABASE_URL")
                  then "✅ Set" else "❌ Not Set")]> response in
      let response :=
        <["database_name" :=
            VStr (env_or (getenv environ "DATABASE_NAME") "❌ Not Set")]> response in
      let response := <["connection_status" := VStr "Connected"]> response in
      match list_collection_names with
      | Names collections =>
          let response := <["collections" := strs (take 10 collections)]> response in
          <["database" := VStr "✅ Connected & Working"]> response
      | ListingFails e =>
          <["database" := VStr ("⚠️  Connected but Error: " +:+ Text.up_to 80 e)]> response
      end
  | None => <["database" := VStr "⚠️  Available but not initialized"]> response
  end.

(** [GET /] *)
Definition read_root : dict := {[ "message" := VStr "AI Tools Blog Backend Running" ]}.

(** * The vocabulary of the statements *)

(** ** Outcomes and inputs of a validation *)

(** The validation fails with an entry of kind [ty] for the field [k]. *)
Definition fails_at {A} (k : string) (ty : error_type) (c : checked A) : Prop :=
  ∃ errs, c = Invalid errs ∧ {| loc := [Field k]; type := ty |} ∈ errs.

(** The construction raises a validation error with an entry of kind [ty]
    for the field [k]. *)
Definition raises_at {A} (title k : string) (ty : error_type) (r : result A) : Prop :=
  ∃ errs, r = Raise (ValidationError title errs)
          ∧ {| loc := [Field k]; type := ty |} ∈ errs.

(** The entries of a validation. *)
Definition errors_of {A} (c : checked A) : list line_error :=
  match c with
  | Valid _ => []
  | Invalid errs => errs
  end.

(** The construction raises a validation error with an entry for the
    field [k]: for the field itself, or for an item of it. *)
Definition has_entry_for {A} (k : string) (r : result A) : Prop :=
  ∃ title errs e, r = Raise (ValidationError title errs)
                  ∧ e ∈ errs ∧ head (loc e) = Some (Field k).

(** Every entry of the validation is at the place [l] or inside it. *)
Definition within {A} (l : list loc_item) (c : checked A) : Prop :=
  Forall (λ e, l `prefix_of` loc e) (errors_of c).

(** The argument under [k] is missing or is not text: it is [None], a
    boolean, a number, a list or a dict. *)
Definition not_text (kwargs : dict) (k : string) : Prop :=
  match kwargs !! k with
  | Some (VStr _) => False
  | _ => True
  end.

(** The kind of the entry then: [missing] for a missing argument,
    [string_type] for one that is not text. *)
Definition text_error (kwargs : dict) (k : string) : error_type :=
  match kwargs !! k with
  | None => missing
  | Some _ => string_type
  end.

(** The argument is text. *)
Definition text_arg (kwargs : dict) (k : string) (s : string) : Prop :=
  kwargs !! k = Some (VStr s).

(** The argument is absent, [None] or text. *)
Definition optional_text_arg (kwargs : dict) (k : string) : Prop :=
  match kwargs !! k with
  | None | Some VNone | Some (VStr _) => True
  | _ => False
  end.

(** The argument is absent or a list of texts. *)
Definition text_list_arg (kwargs : dict) (k : string) : Prop :=
  match kwargs !! k with
  | None => True
  | Some (VList l) => ∃ ss : list string, l = VStr <$> ss
  | _ => False
  end.

(** The website is absent, [None] or a text that parses as a URL. *)
Definition website_well_formed `{Library} (kwargs : dict) : Prop :=
  match kwargs !! "website" with
  | None | Some VNone => True
  | Some (VStr s) => is_Some (parse_url s)
  | _ => False
  end.

(** The rating is absent, [None] or a number (a double or an integer) in
    the closed interval from 0 to 5. *)
Definition rating_in_range (kwargs : dict) : Prop :=
  match kwargs !! "rating" with
  | None | Some VNone => True
  | Some (VFloat f) => PrimFloat.leb 0 f = true ∧ PrimFloat.leb f 5 = true
  | Some (VInt z) => 0 ≤ z ≤ 5
  | _ => False
  end.

(** The rating is a number outside that interval; a NaN is such a number. *)
Definition rating_out_of_range (kwargs : dict) : Prop :=
  match kwargs !! "rating" with
  | Some (VFloat f) => ¬ (PrimFloat.leb 0 f = true ∧ PrimFloat.leb f 5 = true)
  | Some (VInt z) => z < 0 ∨ 5 < z
  | _ => False
  end.

(** ** States of the store *)

(** The state after an operation was recorded. *)
Definition logged (o : op) (st : state) : state :=
  {| collections := collections st; oplog := oplog st ++ [o] |}.

(** The state after one document was inserted. *)
Definition inserted (c : string) (d : dict) (st : state) : state :=
  {| collections := <[c := collection st c ++ [d]]> (collections st);
     oplog := oplog st ++ [OpInsertOne c d] |}.

(** The state after the documents were inserted one after the other. *)
Definition inserted_all (c : string) (ds : list dict) (st : state) : state :=
  foldl (λ st d, inserted c d st) st ds.

(** ** The seed data as documents *)

Definition sector_doc (name slug description : string) : dict :=
  {[ "name" := VStr name; "slug" := VStr slug; "description" := VStr description ]}.

Definition tool_doc (name sector_slug summary : string)
    (strengths limitations : list string) (website pricing : string)
    (rating : float) : dict :=
  {[ "name" := VStr name; "sector_slug" := VStr sector_slug;
     "summary" := VStr summary; "strengths" := strs strengths;
     "limitations" := strs limitations; "website" := VStr website;
     "pricing" := VStr pricing; "rating" := VFloat rating ]}.

Definition comparison_doc (sector_slug headline intro : string)
    (top_tools : list string) : dict :=
  {[ "sector_slug" := VStr sector_slug; "headline" := VStr headline;
     "intro" := VStr intro; "top_tools" := strs top_tools ]}.

(** The five sector documents of the seed. *)
Definition seed_sector_docs : list dict := [
  sector_doc "Marketing" "marketing" "Campaigns, content, SEO";
  sector_doc "Sales" "sales" "Prospecting and enablement";
  sector_doc "Customer Support" "support" "Helpdesk and chatbots";
  sector_doc "Software Development" "engineering" "Code assistants and DevOps";
  sector_doc "Design" "design" "Images, video, UI/UX"
]%string.

(** The ten tool documents of the seed; a website is stored in the
    serialised form of its URL. *)
Definition seed_tool_docs : list dict := [
  tool_doc "Jasper" "marketing" "AI copy for ads and blogs" ["Templates"; "Brand voice"]
    ["Price"] "https://www.jasper.ai/" "From $39/mo" 4.2%float;
  tool_doc "HubSpot AI" "marketing" "AI features inside HubSpot" ["Integrated"]
    ["Ecosystem lock-in"] "https://www.hubspot.com/" "Tiered" 4.0%float;
  tool_doc "Apollo AI" "sales" "Prospecting with AI signals" ["Data"]
    ["Learning curve"] "https://www.apollo.io/" "Freemium" 4.3%float;
  tool_doc "Gong" "sales" "Revenue intelligence" ["Call analysis"]
    ["Enterprise pricing"] "https://www.gong.io/" "Quote-based" 4.5%float;
  tool_doc "Intercom Fin" "support" "AI chatbot for support" ["Answers from docs"]
    ["Requires good KB"] "https://www.intercom.com/" "Add-on" 4.4%float;
  tool_doc "Zendesk AI" "support" "AI assist in helpdesk" ["Workflows"]
    ["Add-on cost"] "https://www.zendesk.com/" "Add-on" 4.1%float;
  tool_doc "GitHub Copilot" "engineering" "Code completion and chat" ["IDE integration"]
    ["Best with popular langs"] "https://github.com/features/copilot" "$10-$19/mo"
    4.7%float;
  tool_doc "OpenAI o1" "engineering" "Reasoning models for complex tasks" ["Reasoning"]
    ["Cost"] "https://openai.com/" "Usage-based" 4.6%float;
  tool_doc "Midjourney" "design" "Generative images" ["Quality"]
    ["Discord UX"] "https://www.midjourney.com/" "From $10/mo" 4.6%float;
  tool_doc "Figma AI" "design" "Generate and edit UI" ["Design-native"]
    ["Early features"] "https://www.figma.com/" "Included" 4.2%float
]%string.

(** The five comparison documents of the seed. *)
Definition seed_comparison_docs : list dict := [
  comparison_doc "marketing" "Best AI Tools for Marketing in 2025"
    "We tested top tools for content, SEO, and campaigns." ["Jasper"; "HubSpot AI"];
  comparison_doc "sales" "Top AI Tools for Sales Teams"
    "Prospecting, call analysis, and forecasting." ["Gong"; "Apollo AI"];
  comparison_doc "support" "AI for Customer Support"
    "Bots, deflection, and agent assistance." ["Intercom Fin"; "Zendesk AI"];
  comparison_doc "engineering" "AI for Software Development"
    "Code completion, reviews, and reasoning." ["GitHub Copilot"; "OpenAI o1"];
  comparison_doc "design" "AI for Designers"
    "From ideas to assets." ["Midjourney"; "Figma AI"]
]%string.

(** The fixed records of a collection. *)
Definition seed_docs (c : string) : list dict :=
  if decide (c = "sector") then seed_sector_docs
  else if decide (c = "tool") then seed_tool_docs
  else if decide (c = "comparison") then seed_comparison_docs
  else [].

(** What the seed does to one collection: it lists the collection, and
    inserts the fixed records when the listing is empty. *)
Definition seed_step (c : string) (docs : list dict) (st : state) : state :=
  if list_truthy (collection st c) then logged (OpFind c All) st
  else inserted_all c docs (logged (OpFind c All) st).

Definition seeded (st : state) : state :=
  seed_step "comparison" seed_comparison_docs
    (seed_step "tool" seed_tool_docs
      (seed_step "sector" seed_sector_docs st)).

Definition status_ok : value := VDict {[ "status" := VStr "ok" ]}.

(** The documents of a list of constructions that all succeed. *)
Definition dumps {T} `{BaseModel T} (l : list (result T)) : option (list dict) :=
  match sequence l with
  | Ok ts => Some (model_dump <$> ts)
  | Raise _ => None
  end.

(** ** Queries *)

(** The field [k] of the document holds the text [s]: it is that text, or a
    list with that text among its items. *)
Definition value_is (s : string) (v : value) : Prop :=
  match v with
  | VStr s' => s' = s
  | VList l => Exists (λ x, x = VStr s) l
  | _ => False
  end.

Definition field_is (k s : string) (d : dict) : Prop :=
  match d !! k with
  | Some v => value_is s v
  | None => False
  end.

#[export] Instance text_eq_dec (x : value) (s : string) : Decision (x = VStr s).
Proof.
  refine (match x with
          | VStr s' => cast_if (decide (s' = s))
          | _ => right _
          end); abstract congruence.
Defined.

#[export] Instance value_is_dec s v : Decision (value_is s v).
Proof. destruct v; simpl; apply _. Defined.

#[export] Instance field_is_dec k s d : Decision (field_is k s d).
Proof. unfold field_is. destruct (d !! k); apply _. Defined.

(** The response of the sector detail for a sector found, its tools and
    the comparison found, if any. *)
Definition detail_response (sector : dict) (tools : list dict)
    (comparison : option dict) : value :=
  VDict {[
    "sector" := VDict {[ "name" := get sector "name"; "slug" := get sector "slug";
                         "description" := get sector "description" ]};
    "tools" :=
      VList ((λ t, VDict {[ "name" := get t "name"; "summary" := get t "summary";
                            "strengths" := get_or t "strengths" (VList []);
                            "limitations" := get_or t "limitations" (VList []);
                            "website" := get t "website";
                            "pricing" := get t "pricing";
                            "rating" := get t "rating" ]}) <$> tools);
    "comparison" :=
      match comparison with
      | Some c => VDict {[ "headline" := get c "headline"; "intro" := get c "intro";
                           "top_tools" := get_or c "top_tools" (VList []) ]}
      | None => VNone
      end ]}.

(** ** Search *)

(** A query without operators: characters of any script, none of them the
    null character or a metacharacter of the pattern language. *)
Definition literal_char (c : N) : bool := Regex.is_plain c && negb (Regex.is_meta c).

Definition literal_query (q : string) : Prop :=
  forallb literal_char (Text.decode q) = true.

(** A text of ASCII characters. *)
Definition ascii_text (s : string) : Prop :=
  Text.forallb (λ c, (Text.byte c <? 128)%N) s = true.

(** A query without operators that is made of ASCII characters. *)
Definition plain_char (c : ascii) : bool :=
  (Text.byte c <? 128)%N && literal_char (Text.byte c).

Definition plain_query (q : string) : Prop := Text.forallb plain_char q = true.

(** Case-insensitive literal substring: the characters of [q] occur in
    [s], one after the other, when characters are compared by their case
    folding. *)
Definition contains_caseless `{Library} (q s : string) : bool :=
  Text.has_run (fold_case <$> Text.decode q) (fold_case <$> Text.decode s).

(** The value holds a text that contains [q] as a case-insensitive literal
    substring: it is such a text, or a list with such a text among its
    items. *)
Definition text_contains `{Library} (q : string) (v : value) : Prop :=
  match v with
  | VStr s => contains_caseless q s = true
  | _ => False
  end.

Definition value_contains `{Library} (q : string) (v : value) : Prop :=
  match v with
  | VStr s => contains_caseless q s = true
  | VList l => Exists (text_contains q) l
  | _ => False
  end.

Definition field_contains `{Library} (q k : string) (d : dict) : Prop :=
  match d !! k with
  | Some v => value_contains q v
  | None => False
  end.

(** The reference of the search: the name, the summary or the sector slug
    contains the query. *)
Definition search_match `{Library} (q : string) (d : dict) : Prop :=
  field_contains q "name" d ∨ field_contains q "summary" d
  ∨ field_contains q "sector_slug" d.

#[export] Instance text_contains_dec `{Library} q v : Decision (text_contains q v).
Proof. destruct v; simpl; apply _. Defined.

#[export] Instance value_contains_dec `{Library} q v : Decision (value_contains q v).
Proof. destruct v; simpl; apply _. Defined.

#[export] Instance field_contains_dec `{Library} q k d : Decision (field_contains q k d).
Proof. unfold field_contains. destruct (d !! k); apply _. Defined.

#[export] Instance search_match_dec `{Library} q d : Decision (search_match q d).
Proof. unfold search_match. apply _. Defined.

(** The response of the search for the tools selected. *)
Definition search_response (tools : list dict) : value :=
  VDict {[ "results" :=
    VList ((λ t, VDict {[ "name" := get t "name";
                          "sector_slug" := get t "sector_slug";
                          "summary" := get t "summary";
                          "rating" := get t "rating";
                          "website" := get t "website" ]}) <$> tools) ]}.

(** The query of the search handler. *)
Definition search_query (q : string) : query :=
  Or [Where "name" (Regex q "i"); Where "summary" (Regex q "i");
      Where "sector_slug" (Regex q "i")].

(** ** Stores of the examples *)

(** The three collections of the handlers hold no document. *)
Definition initially_empty (st : state) : Prop :=
  collection st "sector" = [] ∧ collection st "tool" = []
  ∧ collection st "comparison" = [].

(** The tools and the comparison of the engineering sector in the seed. *)
Definition engineering_sector : dict :=
  sector_doc "Software Development" "engineering" "Code assistants and DevOps".

Definition engineering_tools : list dict := [
  tool_doc "GitHub Copilot" "engineering" "Code completion and chat" ["IDE integration"]
    ["Best with popular langs"] "https://github.com/features/copilot" "$10-$19/mo"
    4.7%float;
  tool_doc "OpenAI o1" "engineering" "Reasoning models for complex tasks" ["Reasoning"]
    ["Cost"] "https://openai.com/" "Usage-based" 4.6%float
]%string.

Definition engineering_comparison : dict :=
  comparison_doc "engineering" "AI for Software Development"
    "Code completion, reviews, and reasoning." ["GitHub Copilot"; "OpenAI o1"].

(** A store with one tool, and no dot in any of its texts. *)
Definition gong : dict :=
  tool_doc "Gong" "sales" "Revenue intelligence" ["Call analysis"]
    ["Enterprise pricing"] "https://www.gong.io/" "Quote-based" 4.5%float.

Definition gong_store : state :=
  {| collections := {[ "tool" := [gong] ]}; oplog := [] |}.

(** A store with one tool document that holds no text: its name is a
    number. *)
Definition numbered : dict := {[ "name" := VInt 5 ]}.

Definition numbered_store : state :=
  {| collections := {[ "tool" := [numbered] ]}; oplog := [] |}.

(** The document holds a text under its name, its summary or its sector
    slug. *)
Definition has_search_text (d : dict) : Prop :=
  ∃ k s, k ∈ ["name"; "summary"; "sector_slug"]%string ∧ d !! k = Some (VStr s).

(** ** More vocabulary: the seeded slugs and the fields of a Tool *)

(** The slugs of the five seeded sectors. *)
Definition seed_slugs : list string :=
  ["marketing"; "sales"; "support"; "engineering"; "design"]%string.

(** The rating of a constructed Tool, when there is one, is in range. *)
Definition rating_bounded (o : option float) : Prop :=
  match o with
  | None => True
  | Some r => PrimFloat.leb 0 r = true ∧ PrimFloat.leb r 5 = true
  end.

(** The website of a Tool, when there is one, is parsed again to itself. *)
Definition website_reparses `{Library} (o : option HttpUrl.t) : Prop :=
  match o with
  | None => True
  | Some u => parse_url (HttpUrl.text u) = Some u
  end.

(** * Properties *)

(** ** The fragments on examples *)

Example HttpUrl_parse_host_only :
  HttpUrl.parse "https://www.jasper.ai" = Some {| HttpUrl.text := "https://www.jasper.ai/" |}.
Proof. reflexivity. Qed.

Example HttpUrl_parse_with_path :
  HttpUrl.parse "https://github.com/features/copilot"
  = Some {| HttpUrl.text := "https://github.com/features/copilot" |}.
Proof. reflexivity. Qed.

Example Regex_search_dot :
  (λ m, m "Gong") <$> @regex_matcher strict_library "." "i" = Some true.
Proof. reflexivity. Qed.

Example Regex_search_caseless :
  (λ m, m "GitHub Copilot") <$> @regex_matcher strict_library "copilot" "i" = Some true.
Proof. reflexivity. Qed.

(** The characters of a text are not its bytes: [é] is one character. *)
Example Text_decode_example : Text.decode "café" = [99; 97; 102; 233]%N.
Proof. reflexivity. Qed.

Example Regex_dot_is_one_character :
  (λ m, (m "é", m "éé")) <$> @regex_matcher strict_library ".." "" = Some (false, true).
Proof. reflexivity. Qed.

(** The Kelvin sign U+212A is found by the letter [k] without regard to
    case, and not with regard to it. *)
Example Regex_search_Kelvin :
  Text.decode "10 K" = [49; 48; 32; 8490]%N
  ∧ (λ m, m "10 K") <$> @regex_matcher strict_library "k" "i" = Some true
  ∧ (λ m, m "10 K") <$> @regex_matcher strict_library "k" "" = Some false.
Proof. split_and!; reflexivity. Qed.

Example Regex_search_beyond_ASCII :
  (λ m, (m "CAFÉ", m "cafe")) <$> @regex_matcher strict_library "café" "i"
  = Some (true, false).
Proof. reflexivity. Qed.

Example Text_up_to_characters : Text.up_to 3 "café au lait" = "caf"%string
  ∧ Text.up_to 4 "café au lait" = "café"%string.
Proof. split; reflexivity. Qed.

Example Regex_outside_fragment : Regex.compile "a|b" "i" = None.
Proof. reflexivity. Qed.

Example Sector_new_example :
  Sector.new {[ "name" := VStr "Marketing"; "slug" := VStr "marketing" ]}
  = Ok {| Sector.name := "Marketing"; Sector.slug := "marketing"; Sector.description := None |}.
Proof. vm_compute. reflexivity. Qed.

Example Sector_new_missing :
  Sector.new {[ "description" := VStr "x" ]}
  = Raise (ValidationError "Sector"
      [ {| loc := [Field "name"]; type := missing |};
        {| loc := [Field "slug"]; type := missing |} ]).
Proof. vm_compute. reflexivity. Qed.

(** ** Validation *)

Lemma fails_at_ap_l {A B} k ty (f : checked (A → B)) (x : checked A) :
  fails_at k ty f → fails_at k ty (Validator.ap f x).
Proof.
  intros (errs & -> & He).
  destruct x as [a | errs']; simpl.
  - by exists errs.
  - exists (errs ++ errs'). split; [done |]. apply elem_of_app. by left.
Qed.

Lemma fails_at_ap_r {A B} k ty (f : checked (A → B)) (x : checked A) :
  fails_at k ty x → fails_at k ty (Validator.ap f x).
Proof.
  intros (errs & -> & He).
  destruct f as [g | errs']; simpl.
  - by exists errs.
  - exists (errs' ++ errs). split; [done |]. apply elem_of_app. by right.
Qed.

Lemma fails_at_construct {A} title k ty (c : checked A) :
  fails_at k ty c → raises_at title k ty (Validator.construct title c).
Proof. intros (errs & -> & He). by exists errs. Qed.

Lemma fails_at_fail {A} k ty : @fails_at A k ty (Validator.fail [Field k] ty).
Proof. eexists. split; [reflexivity |]. by apply list_elem_of_singleton. Qed.

Lemma required_str_fails kwargs k :
  not_text kwargs k →
  fails_at k (text_error kwargs k) (Validator.required Validator.str kwargs k).
Proof.
  unfold not_text, text_error, Validator.required, Validator.str.
  destruct (kwargs !! k) as [v |]; [destruct v |]; intros Hn; try done;
    apply fails_at_fail.
Qed.

Lemma required_str_valid kwargs k s :
  kwargs !! k = Some (VStr s) → Validator.required Validator.str kwargs k = Valid s.
Proof. unfold Validator.required. by intros ->. Qed.

Create HintDb validation.
#[local] Hint Resolve fails_at_ap_l fails_at_ap_r fails_at_construct
  fails_at_fail required_str_fails : validation.

Lemma Sector_new_required kwargs k :
  k ∈ ["name"; "slug"]%string → not_text kwargs k →
  raises_at "Sector" k (text_error kwargs k) (Sector.new kwargs).
Proof.
  intros Hk Hn. unfold Sector.new.
  repeat (apply elem_of_cons in Hk as [-> | Hk]); [| | by apply elem_of_nil in Hk];
    auto 10 with validation.
Qed.

Lemma Tool_new_required `{Library} kwargs k :
  k ∈ ["name"; "sector_slug"; "summary"]%string → not_text kwargs k →
  raises_at "Tool" k (text_error kwargs k) (Tool.new kwargs).
Proof.
  intros Hk Hn. unfold Tool.new.
  repeat (apply elem_of_cons in Hk as [-> | Hk]); [| | | by apply elem_of_nil in Hk];
    auto 15 with validation.
Qed.

Lemma Comparison_new_required kwargs k :
  k ∈ ["sector_slug"; "headline"]%string → not_text kwargs k →
  raises_at "Comparison" k (text_error kwargs k) (Comparison.new kwargs).
Proof.
  intros Hk Hn. unfold Comparison.new.
  repeat (apply elem_of_cons in Hk as [-> | Hk]); [| | by apply elem_of_nil in Hk];
    auto 10 with validation.
Qed.

(** Any texts, the empty one included, are accepted for the required
    fields. *)
Lemma Sector_new_texts n s :
  Sector.new {[ "name" := VStr n; "slug" := VStr s ]}
  = Ok {| Sector.name := n; Sector.slug := s; Sector.description := None |}.
Proof. reflexivity. Qed.

Lemma Tool_new_texts `{Library} n s m :
  Tool.new {[ "name" := VStr n; "sector_slug" := VStr s; "summary" := VStr m ]}
  = Ok {| Tool.name := n; Tool.sector_slug := s; Tool.summary := m;
          Tool.strengths := []; Tool.limitations := []; Tool.website := None;
          Tool.pricing := None; Tool.rating := None |}.
Proof. reflexivity. Qed.

Lemma Comparison_new_texts s h :
  Comparison.new {[ "sector_slug" := VStr s; "headline" := VStr h ]}
  = Ok {| Comparison.sector_slug := s; Comparison.headline := h;
          Comparison.intro := None; Comparison.top_tools := [] |}.
Proof. reflexivity. Qed.

(** ** Where the entries of a validation error point *)

Lemma errors_of_ap {A B} (f : checked (A → B)) (x : checked A) :
  errors_of (Validator.ap f x) = errors_of f ++ errors_of x.
Proof. destruct f, x; simpl; by rewrite ?app_nil_r. Qed.

Lemma errors_of_map {A B} (g : A → B) (c : checked A) :
  errors_of (Validator.map g c) = errors_of c.
Proof. by destruct c. Qed.

Lemma within_fail {A} l ty : within l (@Validator.fail A l ty).
Proof. unfold within. simpl. by repeat constructor. Qed.

Lemma within_valid {A} l (a : A) : within l (Valid a).
Proof. constructor. Qed.

Lemma within_map {A B} l (g : A → B) c : within l c → within l (Validator.map g c).
Proof. unfold within. by rewrite errors_of_map. Qed.

Lemma within_ap {A B} l (f : checked (A → B)) x :
  within l f → within l x → within l (Validator.ap f x).
Proof. unfold within. rewrite errors_of_ap. apply Forall_app_2. Qed.

Lemma within_outer {A} l l' (c : checked A) :
  l `prefix_of` l' → within l' c → within l c.
Proof.
  intros Hl Hc. unfold within. eapply Forall_impl; [exact Hc |].
  intros e He. simpl in He. by etrans.
Qed.

Lemma within_str l v : within l (Validator.str l v).
Proof. destruct v; first [apply within_valid | apply within_fail]. Qed.

Lemma within_optional {A} (f : Validator.t A) l v :
  (∀ l v, within l (f l v)) → within l (Validator.optional f l v).
Proof.
  intros Hf. destruct v; first [apply within_valid | apply within_map, Hf].
Qed.

Lemma within_items {A} (f : Validator.t A) l i vs :
  (∀ l v, within l (f l v)) → within l (Validator.items f l i vs).
Proof.
  intros Hf. revert i. induction vs as [| v vs IH]; intros i; simpl.
  - apply within_valid.
  - apply within_ap; [| apply IH]. apply within_map.
    apply (within_outer l (l ++ [Index i])); [by apply prefix_app_r | apply Hf].
Qed.

Lemma within_list_of {A} (f : Validator.t A) l v :
  (∀ l v, within l (f l v)) → within l (Validator.list_of f l v).
Proof.
  intros Hf. destruct v; first [by apply within_items | apply within_fail].
Qed.

Lemma within_HttpUrl `{Library} l v : within l (Validator.HttpUrl l v).
Proof.
  destruct v; try apply within_fail. simpl.
  destruct (parse_url s); [apply within_valid | apply within_fail].
Qed.

Lemma within_bounded ge le l f : within l (Validator.bounded ge le l f).
Proof.
  unfold Validator.bounded.
  repeat case_match; first [apply within_valid | apply within_fail].
Qed.

Lemma within_float_between `{Library} ge le l v :
  within l (Validator.float_between ge le l v).
Proof.
  destruct v; simpl; try apply within_fail; try apply within_bounded.
  - repeat case_match; first [apply within_valid | apply within_fail].
  - destruct (float_of_str s); [apply within_bounded | apply within_fail].
Qed.

Lemma within_required {A} (f : Validator.t A) kwargs k :
  (∀ l v, within l (f l v)) → within [Field k] (Validator.required f kwargs k).
Proof.
  intros Hf. unfold Validator.required.
  destruct (kwargs !! k); [apply Hf | apply within_fail].
Qed.

Lemma within_defaulted {A} (f : Validator.t A) kwargs k d :
  (∀ l v, within l (f l v)) → within [Field k] (Validator.defaulted f kwargs k d).
Proof.
  intros Hf. unfold Validator.defaulted.
  destruct (kwargs !! k); [apply Hf | apply within_valid].
Qed.

(** An entry of the validation of the field [k'] is an entry for [k']. *)
Lemma within_field_entry {A} k' (c : checked A) e :
  within [Field k'] c → e ∈ errors_of c → head (loc e) = Some (Field k').
Proof.
  unfold within. rewrite Forall_forall. intros Hc He.
  destruct (Hc e He) as [rest ->]. reflexivity.
Qed.

Lemma has_entry_for_construct {A} k title (c : checked A) :
  has_entry_for k (Validator.construct title c) →
  ∃ e, e ∈ errors_of c ∧ head (loc e) = Some (Field k).
Proof.
  intros (title' & errs & e & Hr & He & Hh). exists e. split; [| done].
  destruct c as [a | errs0]; simpl in *; [discriminate |]. congruence.
Qed.

(** A required text field given a text adds no entry. *)
Lemma required_str_no_entry kwargs k s e :
  text_arg kwargs k s → e ∉ errors_of (Validator.required Validator.str kwargs k).
Proof.
  intros Hs. rewrite (required_str_valid _ _ _ Hs). simpl. apply not_elem_of_nil.
Qed.

#[local] Hint Resolve within_str within_optional within_list_of within_HttpUrl
  within_float_between within_required within_defaulted : validation.

(** An entry for the field [k] comes from the validation of [k]. *)
Lemma entry_elsewhere {A} k k' (c : checked A) e :
  within [Field k'] c → e ∈ errors_of c → head (loc e) = Some (Field k) → k = k'.
Proof.
  intros Hc He Hh. rewrite (within_field_entry k' c e Hc He) in Hh. congruence.
Qed.

(** The entries of a construction are those of its fields: a field given
    a text adds none, and the entries of another field are not for it. *)
Ltac no_entry Hs :=
  let e := fresh "e" in let He := fresh "He" in let Hh := fresh "Hh" in
  intros [e [He Hh]]%has_entry_for_construct;
  rewrite !errors_of_ap in He; rewrite !elem_of_app in He;
  repeat match goal with H : _ ∨ _ |- _ => destruct H as [H | H] end;
  first
    [ by apply elem_of_nil in He
    | by apply (required_str_no_entry _ _ _ _ Hs) in He
    | (eapply entry_elsewhere in He; [| by auto with validation | exact Hh]);
      discriminate He ].

(** A required text field given a text, whatever text, has no entry in
    the validation error, whatever the other arguments are. *)
Lemma Sector_new_text_accepted kwargs k s :
  k ∈ ["name"; "slug"]%string → text_arg kwargs k s →
  ¬ has_entry_for k (Sector.new kwargs).
Proof.
  intros Hk Hs. unfold Sector.new.
  repeat (apply elem_of_cons in Hk as [-> | Hk]); [| | by apply elem_of_nil in Hk];
    no_entry Hs.
Qed.

Lemma Tool_new_text_accepted `{Library} kwargs k s :
  k ∈ ["name"; "sector_slug"; "summary"]%string → text_arg kwargs k s →
  ¬ has_entry_for k (Tool.new kwargs).
Proof.
  intros Hk Hs. unfold Tool.new.
  repeat (apply elem_of_cons in Hk as [-> | Hk]); [| | | by apply elem_of_nil in Hk];
    no_entry Hs.
Qed.

Lemma Comparison_new_text_accepted kwargs k s :
  k ∈ ["sector_slug"; "headline"]%string → text_arg kwargs k s →
  ¬ has_entry_for k (Comparison.new kwargs).
Proof.
  intros Hk Hs. unfold Comparison.new.
  repeat (apply elem_of_cons in Hk as [-> | Hk]); [| | by apply elem_of_nil in Hk];
    no_entry Hs.
Qed.

(** ** The Tool model: which inputs are accepted *)

Lemma items_str_texts l i (ss : list string) :
  Validator.items Validator.str l i (VStr <$> ss) = Valid ss.
Proof.
  revert i. induction ss as [| s ss IH]; intros i; simpl; [done |].
  by rewrite IH.
Qed.

Lemma defaulted_text_list kwargs k :
  text_list_arg kwargs k →
  ∃ ss, Validator.defaulted (Validator.list_of Validator.str) kwargs k [] = Valid ss.
Proof.
  unfold text_list_arg, Validator.defaulted.
  destruct (kwargs !! k) as [[| | | | | l |] |]; try done.
  - intros [ss ->]. exists ss. apply items_str_texts.
  - by exists [].
Qed.

Lemma defaulted_optional_text kwargs k :
  optional_text_arg kwargs k →
  ∃ o, Validator.defaulted (Validator.optional Validator.str) kwargs k None = Valid o.
Proof.
  unfold optional_text_arg, Validator.defaulted.
  destruct (kwargs !! k) as [[| | | | s | |] |]; try done; intros _.
  - by exists None.
  - by exists (Some s).
  - by exists None.
Qed.

Lemma defaulted_website `{Library} kwargs :
  website_well_formed kwargs →
  ∃ o, Validator.defaulted (Validator.optional Validator.HttpUrl) kwargs "website" None
       = Valid o.
Proof.
  unfold website_well_formed, Validator.defaulted.
  destruct (kwargs !! "website") as [[| | | | s | |] |]; try done.
  - by exists None.
  - intros [u Hu]. exists (Some u). simpl. by rewrite Hu.
  - by exists None.
Qed.

Lemma bounded_in_range l f :
  PrimFloat.leb 0 f = true → PrimFloat.leb f 5 = true →
  Validator.bounded 0 5 l f = Valid f.
Proof.
  intros H0 H5. unfold Validator.bounded.
  change (Validator.float_of_small 5) with 5%float.
  change (Validator.float_of_small 0) with 0%float.
  by rewrite H0, H5.
Qed.

Lemma bounded_out_of_range k f :
  ¬ (PrimFloat.leb 0 f = true ∧ PrimFloat.leb f 5 = true) →
  ∃ ty, fails_at k ty (Validator.bounded 0 5 [Field k] f).
Proof.
  intros Hn. unfold Validator.bounded.
  change (Validator.float_of_small 5) with 5%float.
  change (Validator.float_of_small 0) with 0%float.
  destruct (PrimFloat.leb f 5) eqn:H5; simpl.
  - destruct (PrimFloat.leb 0 f) eqn:H0; simpl.
    + by destruct Hn.
    + exists greater_than_equal. apply fails_at_fail.
  - exists less_than_equal. apply fails_at_fail.
Qed.

Lemma fails_at_map {A B} k ty (g : A → B) (c : checked A) :
  fails_at k ty c → fails_at k ty (Validator.map g c).
Proof. intros (errs & -> & He). by exists errs. Qed.

Lemma defaulted_rating_in_range `{Library} kwargs :
  rating_in_range kwargs →
  ∃ o, Validator.defaulted (Validator.optional (Validator.float_between 0 5))
         kwargs "rating" None = Valid o.
Proof.
  unfold rating_in_range, Validator.defaulted.
  destruct (kwargs !! "rating") as [[| | z | f | | |] |]; try done.
  - by exists None.
  - intros Hz. exists (Some (Validator.float_of_small z)). simpl.
    assert (z = 0 ∨ z = 1 ∨ z = 2 ∨ z = 3 ∨ z = 4 ∨ z = 5) as Hc by lia.
    destruct Hc as [-> | [-> | [-> | [-> | [-> | ->]]]]]; reflexivity.
  - intros [H0 H5]. exists (Some f). simpl. by rewrite bounded_in_range.
  - by exists None.
Qed.

Ltac fails_with ty :=
  exists ty; eexists; split; [reflexivity | by apply list_elem_of_singleton].

Lemma defaulted_rating_out_of_range `{Library} kwargs :
  rating_out_of_range kwargs →
  ∃ ty, fails_at "rating" ty
          (Validator.defaulted (Validator.optional (Validator.float_between 0 5))
             kwargs "rating" None).
Proof.
  unfold rating_out_of_range, Validator.defaulted.
  destruct (kwargs !! "rating") as [[| | z | f | | |] |]; try done.
  - intros Hz. simpl.
    destruct (Validator.int_fits_float z); simpl;
      [| fails_with float_type].
    destruct (z <=? 5) eqn:H5; simpl;
      [| fails_with less_than_equal].
    destruct (0 <=? z) eqn:H0; simpl;
      [| fails_with greater_than_equal].
    lia.
  - intros Hf. simpl.
    destruct (bounded_out_of_range "rating" f Hf) as [ty Hty].
    exists ty. by apply fails_at_map.
Qed.

(** ** Runs of the store operations *)

Lemma collection_logged o st c : collection (logged o st) c = collection st c.
Proof. reflexivity. Qed.

Lemma collection_inserted c d st c' :
  collection (inserted c d st) c'
  = if decide (c = c') then collection st c ++ [d] else collection st c'.
Proof.
  unfold collection at 1. simpl. rewrite lookup_insert.
  by destruct (decide (c = c')).
Qed.

Lemma collection_inserted_all c ds st c' :
  collection (inserted_all c ds st) c'
  = if decide (c = c') then collection st c ++ ds else collection st c'.
Proof.
  unfold inserted_all. revert st. induction ds as [| d ds IH]; intros st; simpl.
  - destruct (decide (c = c')) as [-> |]; [by rewrite app_nil_r | done].
  - rewrite IH, !collection_inserted.
    destruct (decide (c = c')) as [-> |].
    + rewrite decide_True by done. by rewrite <- app_assoc.
    + done.
Qed.

Lemma oplog_inserted_all c ds st :
  oplog (inserted_all c ds st) = oplog st ++ (OpInsertOne c <$> ds).
Proof.
  unfold inserted_all. revert st. induction ds as [| d ds IH]; intros st; simpl.
  - by rewrite app_nil_r.
  - rewrite IH. simpl. by rewrite <- app_assoc.
Qed.

Lemma find_run `{Library} db c f p st :
  selects f = Some p →
  find db c f st = (Ok (List.filter p (collection st c)), logged (OpFind c f) st).
Proof. intros Hp. unfold find, bind, record. simpl. by rewrite Hp. Qed.

Lemma find_one_run `{Library} db c f p st :
  selects f = Some p →
  find_one db c f st = (Ok (List.find p (collection st c)), logged (OpFindOne c f) st).
Proof. intros Hp. unfold find_one, bind, record. simpl. by rewrite Hp. Qed.

Lemma find_all_run `{Library} db c st :
  find db c All st = (Ok (collection st c), logged (OpFind c All) st).
Proof.
  rewrite (find_run db c All (λ _, true)) by done.
  f_equal. f_equal. induction (collection st c) as [| d l IH]; simpl; congruence.
Qed.

Lemma insert_one_run db c d st : insert_one db c d st = (Ok tt, inserted c d st).
Proof. reflexivity. Qed.

Lemma for_each_create_document {T} `{BaseModel T} db c (l : list T) st :
  for_each l (create_document db c) st
  = (Ok tt, inserted_all c (model_dump <$> l) st).
Proof.
  revert st. induction l as [| x l IH]; intros st; simpl; [done |].
  unfold bind at 1. unfold create_document at 1. rewrite insert_one_run.
  by rewrite IH.
Qed.

(** ** The seed *)

Lemma Sector__ok n s d :
  Sector_ n s d
  = Ok {| Sector.name := n; Sector.slug := s; Sector.description := Some d |}.
Proof. reflexivity. Qed.

Lemma Comparison__ok s h i t :
  Comparison_ s h i t
  = Ok {| Comparison.sector_slug := s; Comparison.headline := h;
          Comparison.intro := Some i; Comparison.top_tools := t |}.
Proof.
  unfold Comparison_, Comparison.new, Validator.required, Validator.defaulted.
  change (?kw !! "sector_slug") with (Some (VStr s)).
  change (?kw !! "headline") with (Some (VStr h)).
  change (?kw !! "intro") with (Some (VStr i)).
  change (?kw !! "top_tools") with (Some (strs t)).
  simpl. unfold strs. by rewrite items_str_texts.
Qed.

Lemma Tool__ok `{Library} n s m st li w u p r :
  HttpUrl.parse w = Some u →
  PrimFloat.leb 0 r = true → PrimFloat.leb r 5 = true →
  Tool_ n s m st li w p r
  = Ok {| Tool.name := n; Tool.sector_slug := s; Tool.summary := m;
          Tool.strengths := st; Tool.limitations := li; Tool.website := Some u;
          Tool.pricing := Some p; Tool.rating := Some r |}.
Proof.
  intros Hu H0 H5.
  unfold Tool_, Tool.new, Validator.required, Validator.defaulted.
  change (?kw !! "name") with (Some (VStr n)).
  change (?kw !! "sector_slug") with (Some (VStr s)).
  change (?kw !! "summary") with (Some (VStr m)).
  change (?kw !! "strengths") with (Some (strs st)).
  change (?kw !! "limitations") with (Some (strs li)).
  change (?kw !! "website") with (Some (VStr w)).
  change (?kw !! "pricing") with (Some (VStr p)).
  change (?kw !! "rating") with (Some (VFloat r)).
  simpl. unfold strs, parse_url.
  by rewrite !items_str_texts, Hu, (bounded_in_range _ _ H0 H5).
Qed.

Lemma dumps_seed_sectors : dumps seed_sectors = Some seed_sector_docs.
Proof. unfold dumps, seed_sectors. rewrite !Sector__ok. reflexivity. Qed.

Lemma dumps_seed_tools `{Library} : dumps seed_tools = Some seed_tool_docs.
Proof.
  unfold dumps, seed_tools.
  repeat (erewrite Tool__ok; [| reflexivity ..]).
  reflexivity.
Qed.

Lemma dumps_seed_comparisons : dumps seed_comparisons = Some seed_comparison_docs.
Proof. unfold dumps, seed_comparisons. rewrite !Comparison__ok. reflexivity. Qed.

Lemma seed_section {T B} `{Library} `{BaseModel T} db c (l : list (result T)) docs
    (k : unit → M B) st :
  dumps l = Some docs →
  bind (find db c All)
    (λ existing,
       bind (if negb (list_truthy existing)
             then bind (lift (sequence l)) (λ ts, for_each ts (create_document db c))
             else ret tt) k) st
  = k tt (seed_step c docs st).
Proof.
  unfold dumps. intros Hd.
  unfold bind at 1. rewrite find_all_run. unfold seed_step.
  destruct (collection st c) as [| d ds] eqn:Hc; simpl.
  - unfold bind at 1. unfold bind at 1. unfold lift.
    destruct (sequence l) as [ts | e]; [| done].
    injection Hd as <-. by rewrite for_each_create_document.
  - reflexivity.
Qed.

Lemma seed_content_run `{Library} db st :
  seed_content (Some db) st = (Ok status_ok, seeded st).
Proof.
  unfold seed_content, seeded.
  rewrite (seed_section db "sector" seed_sectors seed_sector_docs)
    by apply dumps_seed_sectors.
  rewrite (seed_section db "tool" seed_tools seed_tool_docs)
    by apply dumps_seed_tools.
  rewrite (seed_section db "comparison" seed_comparisons seed_comparison_docs)
    by apply dumps_seed_comparisons.
  reflexivity.
Qed.

(** ** Queries *)

Lemma value_matches_eqb s v : value_matches (String.eqb s) v = true ↔ value_is s v.
Proof.
  destruct v as [| | | | s' | l |]; simpl; try (split; [discriminate | done]).
  - rewrite String.eqb_eq. split; congruence.
  - rewrite existsb_exists, Exists_exists. split.
    + intros (x & Hin & Hx). exists x. split; [by apply list_elem_of_In |].
      destruct x; try discriminate. apply String.eqb_eq in Hx. congruence.
    + intros (x & Hin & ->). exists (VStr s). split; [by apply list_elem_of_In |].
      apply String.eqb_refl.
Qed.

Lemma field_matches_eqb k s d : field_matches (String.eqb s) k d = true ↔ field_is k s d.
Proof.
  unfold field_matches, field_is. destruct (d !! k); [apply value_matches_eqb |].
  split; [discriminate | done].
Qed.

Lemma List_filter_decide {A} (f : A → bool) (P : A → Prop) `{∀ x, Decision (P x)} l :
  (∀ x, f x = true ↔ P x) → List.filter f l = filter P l.
Proof.
  intros Hf. induction l as [| x l IH]; simpl; [done |].
  rewrite filter_cons. destruct (decide (P x)) as [Hp | Hp].
  - apply Hf in Hp. rewrite Hp. by rewrite IH.
  - destruct (f x) eqn:Hx; [by apply Hf in Hx |]. done.
Qed.

Lemma List_find_head {A} (f : A → bool) l : List.find f l = head (List.filter f l).
Proof. induction l as [| x l IH]; simpl; [done |]. by destruct (f x). Qed.

Lemma field_is_truthy k s d : field_is k s d → dict_truthy d = true.
Proof.
  unfold field_is, dict_truthy. destruct (d !! k) as [v |] eqn:Hk; [| done].
  intros _. apply negb_true_iff, bool_decide_eq_false.
  intros He. apply dom_empty_iff_L in He. by rewrite He, lookup_empty in Hk.
Qed.

Lemma head_filter_holds {A} (P : A → Prop) `{∀ x, Decision (P x)} l x :
  head (filter P l) = Some x → P x.
Proof.
  intros Hh. assert (x ∈ filter P l) as Hin.
  { destruct (filter P l); [done |]. injection Hh as ->. apply elem_of_cons. by left. }
  by apply list_elem_of_filter in Hin as [? _].
Qed.


Lemma sector_detail_run `{Library} db slug st :
  let sectors := filter (field_is "slug" slug) (collection st "sector") in
  let tools := filter (field_is "sector_slug" slug) (collection st "tool") in
  let comparisons := filter (field_is "sector_slug" slug) (collection st "comparison") in
  sector_detail (Some db) slug st =
    match head sectors with
    | None =>
        (Raise (HTTPException 404 "Sector not found"),
         logged (OpFindOne "sector" (Where "slug" (Eq slug))) st)
    | Some sector =>
        (Ok (detail_response sector tools (head comparisons)),
         logged (OpFindOne "comparison" (Where "sector_slug" (Eq slug)))
           (logged (OpFind "tool" (Where "sector_slug" (Eq slug)))
             (logged (OpFindOne "sector" (Where "slug" (Eq slug))) st)))
    end.
Proof.
  intros sectors tools comparisons. unfold sector_detail.
  unfold bind at 1. erewrite find_one_run by reflexivity.
  rewrite List_find_head.
  rewrite (List_filter_decide _ (field_is "slug" slug))
    by (intros; apply field_matches_eqb).
  fold sectors. destruct (head sectors) as [sector |] eqn:Hs; simpl; [| done].
  apply head_filter_holds in Hs. rewrite (field_is_truthy _ _ _ Hs).
  unfold bind at 1. erewrite find_run by reflexivity.
  unfold bind at 1. erewrite find_one_run by reflexivity.
  rewrite !collection_logged.
  rewrite List_find_head.
  rewrite !(List_filter_decide _ (field_is "sector_slug" slug))
    by (intros; apply field_matches_eqb).
  fold tools comparisons. unfold ret.
  f_equal. f_equal. unfold detail_response, and_then, sector_view, comparison_view.
  destruct (head comparisons) as [c |] eqn:Hc.
  - apply head_filter_holds in Hc. by rewrite (field_is_truthy _ _ _ Hc).
  - done.
Qed.

(** ** Search *)





Lemma has_run_nil (s : list N) : Text.has_run [] s = true.
Proof. by destruct s. Qed.

Lemma literal_char_not_special c :
  literal_char c = true →
  (c =? Text.byte "\")%N = false ∧ (c =? Text.byte ".")%N = false
  ∧ (Regex.is_meta c || negb (Regex.is_plain c)) = false.
Proof.
  unfold literal_char. intros [Hp Hm]%andb_true_iff. apply negb_true_iff in Hm.
  rewrite Hm, Hp. split_and!; [| | done].
  - destruct (c =? Text.byte "\")%N eqn:He; [| done].
    apply N.eqb_eq in He. subst c. discriminate.
  - destruct (c =? Text.byte ".")%N eqn:He; [| done].
    apply N.eqb_eq in He. subst c. discriminate.
Qed.

Lemma parse_literal (l : list N) :
  forallb literal_char l = true → Regex.parse l = Some (Regex.Lit <$> l).
Proof.
  induction l as [| c l IH]; [done |].
  cbn [forallb]. intros [Hc Hl]%andb_true_iff.
  destruct (literal_char_not_special c Hc) as (H1 & H2 & H3).
  cbn [Regex.parse]. rewrite H1, H2, H3, (IH Hl). reflexivity.
Qed.

Lemma match_here_literals (fold : N → N) (q s : list N) :
  Regex.match_here fold true (Regex.Lit <$> q) s
  = Text.has_prefix (fold <$> q) (fold <$> s).
Proof.
  revert s. induction q as [| a q IH]; intros s; [done |].
  destruct s as [| b s]; [done |]. simpl. by rewrite IH.
Qed.

Lemma search_from_literals (fold : N → N) (q s : list N) :
  Regex.search_from fold true (Regex.Lit <$> q) s
  = Text.has_run (fold <$> q) (fold <$> s).
Proof.
  induction s as [| b s IH].
  - simpl. by rewrite match_here_literals.
  - cbn [Regex.search_from Text.has_run fmap list_fmap].
    rewrite <- IH, match_here_literals. reflexivity.
Qed.

(** On a query without operators the pattern is inside the fragment, and
    it is found exactly in the texts that contain the query without regard
    to case. *)
Lemma regex_matcher_literal `{Library} q :
  literal_query q →
  ∃ m, regex_matcher q "i" = Some m ∧ ∀ s, m s = contains_caseless q s.
Proof.
  intros Hq. unfold regex_matcher, Regex.compile. rewrite (parse_literal _ Hq). simpl.
  eexists. split; [reflexivity |]. intros s. apply search_from_literals.
Qed.

Lemma value_matches_contains `{Library} (m : string → bool) q v :
  (∀ s, m s = contains_caseless q s) →
  value_matches m v = true ↔ value_contains q v.
Proof.
  intros Hm. destruct v as [| | | | s | l |]; simpl; try (split; [discriminate | done]).
  - by rewrite Hm.
  - rewrite existsb_exists, Exists_exists. split.
    + intros (x & Hin & Hx). exists x. split; [by apply list_elem_of_In |].
      destruct x; try discriminate. simpl. by rewrite <- Hm.
    + intros (x & Hin & Hx). exists x. split; [by apply list_elem_of_In |].
      destruct x; try done. simpl in Hx. by rewrite Hm.
Qed.

Lemma field_matches_contains `{Library} (m : string → bool) q k d :
  (∀ s, m s = contains_caseless q s) →
  field_matches m k d = true ↔ field_contains q k d.
Proof.
  intros Hm. unfold field_matches, field_contains.
  destruct (d !! k); [by apply value_matches_contains |].
  split; [discriminate | done].
Qed.

Lemma selects_search_literal `{Library} q :
  literal_query q →
  ∃ p, selects (search_query q) = Some p ∧ ∀ d, p d = true ↔ search_match q d.
Proof.
  intros Hq. destruct (regex_matcher_literal q Hq) as (m & Hm & Hc).
  unfold search_query. cbn [selects mapM]. rewrite Hm. simpl.
  eexists. split; [reflexivity |]. intros d. simpl.
  rewrite orb_false_r, !orb_true_iff, !(field_matches_contains m q) by done.
  unfold search_match. tauto.
Qed.

(** *** Queries of ASCII characters *)

(** The characters of a text of ASCII characters are its bytes. *)
Lemma decode_ascii s : ascii_text s → Text.decode s = Text.bytes s.
Proof.
  unfold ascii_text, Text.decode. induction s as [| a s IH]; [done |].
  cbn [Text.forallb]. intros [Ha Hs]%andb_true_iff.
  cbn [Text.chars Text.bytes].
  assert (Text.width a s = 0%nat) as ->.
  { unfold Text.width. apply N.ltb_lt in Ha.
    destruct (Text.byte a <? 194)%N eqn:E; [done |]. apply N.ltb_ge in E. lia. }
  rewrite take_0, drop_0, fmap_cons, (IH Hs). f_equal.
  unfold Text.code. cbn [Text.join foldr Text.bytes]. by rewrite Ha.
Qed.

Lemma plain_query_ascii q : plain_query q → ascii_text q.
Proof.
  unfold plain_query, ascii_text. induction q as [| c q IH]; [done |].
  cbn [Text.forallb]. intros [Hc Hq]%andb_true_iff.
  unfold plain_char in Hc. apply andb_true_iff in Hc as [Hc _].
  by rewrite Hc, (IH Hq).
Qed.

Lemma plain_query_literal q : plain_query q → literal_query q.
Proof.
  intros Hq. unfold literal_query. rewrite (decode_ascii q (plain_query_ascii q Hq)).
  revert Hq. unfold plain_query. induction q as [| c q IH]; [done |].
  cbn [Text.forallb Text.bytes forallb]. intros [Hc Hq]%andb_true_iff.
  unfold plain_char in Hc. apply andb_true_iff in Hc as [_ Hc].
  by rewrite Hc, (IH Hq).
Qed.






Lemma search_tools_run `{Library} db query st p :
  selects (search_query (q query)) = Some p →
  search_tools (Some db) query st
  = (Ok (search_response (List.filter p (collection st "tool"))),
     logged (OpFind "tool" (search_query (q query))) st).
Proof.
  intros Hp. unfold search_tools. fold (search_query (q query)).
  unfold bind. by rewrite (find_run _ _ _ p _ Hp).
Qed.

Lemma contains_caseless_empty `{Library} s : contains_caseless "" s = true.
Proof. unfold contains_caseless. apply has_run_nil. Qed.

Lemma search_match_empty `{Library} d : has_search_text d → search_match "" d.
Proof.
  intros (k & s & Hk & Hd). unfold search_match, field_contains.
  repeat (apply elem_of_cons in Hk as [-> | Hk]); [| | | by apply elem_of_nil in Hk];
    rewrite Hd; simpl; rewrite contains_caseless_empty; auto.
Qed.

Lemma filter_all {A} (P : A → Prop) `{∀ x, Decision (P x)} (l : list A) :
  (∀ x, x ∈ l → P x) → filter P l = l.
Proof.
  intros Hall. induction l as [| x l IH]; [done |].
  rewrite filter_cons_True by (apply Hall, list_elem_of_here).
  rewrite IH; [done |]. intros y Hy. by apply Hall, list_elem_of_further.
Qed.

(** ** The seed, collection by collection *)

Lemma collection_seed_step c docs st c' :
  collection (seed_step c docs st) c'
  = if decide (c = c')
    then match collection st c with [] => docs | _ :: _ => collection st c end
    else collection st c'.
Proof.
  unfold seed_step. destruct (collection st c) as [| d ds] eqn:Hc; simpl.
  - rewrite collection_inserted_all, !collection_logged, Hc.
    by destruct (decide (c = c')).
  - rewrite collection_logged. by destruct (decide (c = c')) as [<- |].
Qed.

Lemma collection_seeded st c :
  c ∈ ["sector"; "tool"; "comparison"]%string →
  collection (seeded st) c
  = match collection st c with [] => seed_docs c | _ :: _ => collection st c end.
Proof.
  intros Hc. unfold seeded. rewrite !collection_seed_step.
  repeat (apply elem_of_cons in Hc as [-> | Hc]); [| | | by apply elem_of_nil in Hc];
    reflexivity.
Qed.

Lemma seed_step_nonempty c docs st :
  collection st c ≠ [] → seed_step c docs st = logged (OpFind c All) st.
Proof. unfold seed_step. by destruct (collection st c). Qed.

Lemma seeded_nonempty st :
  collection st "sector" ≠ [] → collection st "tool" ≠ [] →
  collection st "comparison" ≠ [] →
  seeded st
  = {| collections := collections st;
       oplog := oplog st ++ [OpFind "sector" All; OpFind "tool" All;
                             OpFind "comparison" All] |}.
Proof.
  intros Hs Ht Hc. unfold seeded.
  rewrite (seed_step_nonempty "sector") by done.
  rewrite (seed_step_nonempty "tool") by by rewrite collection_logged.
  rewrite (seed_step_nonempty "comparison") by by rewrite !collection_logged.
  unfold logged. simpl. f_equal. by rewrite <- !app_assoc.
Qed.

Lemma seeded_initially_empty st :
  initially_empty st →
  collection (seeded st) "sector" = seed_sector_docs
  ∧ collection (seeded st) "tool" = seed_tool_docs
  ∧ collection (seeded st) "comparison" = seed_comparison_docs.
Proof.
  intros (Hs & Ht & Hc).
  rewrite !collection_seeded by (repeat first [apply list_elem_of_here | apply list_elem_of_further]).
  by rewrite Hs, Ht, Hc.
Qed.

(** One element of a list under [filter], decided by evaluation. *)
Ltac filter_step :=
  first
    [ rewrite filter_cons_True by reflexivity
    | rewrite filter_cons_False
        by (let Hx := fresh in intros Hx; vm_compute in Hx; discriminate Hx) ].

Lemma seed_engineering_sector :
  head (filter (field_is "slug" "engineering") seed_sector_docs) = Some engineering_sector.
Proof.
  unfold seed_sector_docs. do 3 filter_step. rewrite filter_cons_True by reflexivity.
  reflexivity.
Qed.

Lemma seed_engineering_tools :
  filter (field_is "sector_slug" "engineering") seed_tool_docs = engineering_tools.
Proof.
  unfold seed_tool_docs. do 10 filter_step. rewrite filter_nil. reflexivity.
Qed.

Lemma seed_engineering_comparison :
  head (filter (field_is "sector_slug" "engineering") seed_comparison_docs)
  = Some engineering_comparison.
Proof.
  unfold seed_comparison_docs. do 3 filter_step.
  rewrite filter_cons_True by reflexivity. reflexivity.
Qed.

(** * The claims of the specification *)

(** C1, as stated, fails: the query is a pattern, not a literal text. On a
    store whose only tool is Gong, the query [.] selects that tool, and no
    text of the tool contains a dot. *)
Lemma search_tools_dot_is_not_literal :
  fst (@search_tools strict_library (Some the_db) {| q := "." |} gong_store)
  = Ok (search_response [gong])
  ∧ filter (@search_match strict_library ".") (collection gong_store "tool") = []
  ∧ search_response [gong] ≠ search_response [].
Proof.
  split_and!.
  - vm_compute. reflexivity.
  - vm_compute. reflexivity.
  - intros He. apply (f_equal (λ v, match v with
                                    | VDict d => d !! "results"
                                    | _ => None
                                    end)) in He.
    vm_compute in He. discriminate.
Qed.

(** C1, amended: for every query none of whose characters is the null
    character or a metacharacter of the pattern language (the characters
    of any script are allowed), and for every store, the search on a
    configured store returns exactly the tools whose name, summary or sector
    slug contains the query as a case-insensitive literal substring, in the
    order of the collection and shaped as name, sector_slug, summary, rating
    and website. Texts are compared character by character, two characters
    being the same without regard to case when their case foldings in the
    store's engine are the same. *)
Theorem search_tools_literal_query `{Library} db query st :
  literal_query (q query) →
  fst (search_tools (Some db) query st)
  = Ok (search_response (filter (search_match (q query)) (collection st "tool"))).
Proof.
  intros Hq. destruct (selects_search_literal (q query) Hq) as (p & Hp & Hm).
  rewrite (search_tools_run db query st p Hp). simpl.
  by rewrite (List_filter_decide p (search_match (q query))).
Qed.

(** The amended C1 at the query [café] on the store whose only tool is
    Gong. *)
Lemma search_tools_literal_query_witness :
  literal_query "café"
  ∧ fst (@search_tools strict_library (Some the_db) {| q := "café" |} gong_store)
    = Ok (search_response
            (filter (@search_match strict_library "café") (collection gong_store "tool"))).
Proof.
  split; [reflexivity |].
  apply (@search_tools_literal_query strict_library the_db {| q := "café" |} gong_store).
  reflexivity.
Defined.

(** C2: on a configured store whose three collections are empty, two seeds
    in a row both answer ok and leave 5 sectors, 10 tools and 5 comparisons;
    the second seed lists the three collections and inserts nothing. *)
Theorem seed_content_twice `{Library} db st :
  initially_empty st →
  let once := seed_content (Some db) st in
  let twice := seed_content (Some db) (snd once) in
  fst once = Ok status_ok ∧ fst twice = Ok status_ok
  ∧ length (collection (snd twice) "sector") = 5%nat
  ∧ length (collection (snd twice) "tool") = 10%nat
  ∧ length (collection (snd twice) "comparison") = 5%nat
  ∧ collections (snd twice) = collections (snd once)
  ∧ oplog (snd twice)
    = oplog (snd once) ++ [OpFind "sector" All; OpFind "tool" All;
                           OpFind "comparison" All].
Proof.
  intros Hst once twice. subst once twice. rewrite !seed_content_run.
  cbn [fst snd].
  destruct (seeded_initially_empty st Hst) as (Hs & Ht & Hc).
  rewrite (seeded_nonempty (seeded st))
    by (rewrite ?Hs, ?Ht, ?Hc; discriminate).
  unfold collection in *. cbn [collections oplog]. rewrite Hs, Ht, Hc.
  split_and!; reflexivity.
Qed.

(** C2 on the store without any collection. *)
Lemma seed_content_twice_witness :
  initially_empty empty_store
  ∧ length (collection
      (snd (@seed_content strict_library (Some the_db)
         (snd (@seed_content strict_library (Some the_db) empty_store)))) "tool")
    = 10%nat.
Proof.
  assert (initially_empty empty_store) as He by (by split_and!).
  split; [exact He |].
  exact (proj1 (proj2 (proj2 (proj2
    (@seed_content_twice strict_library the_db empty_store He))))).
Defined.

(** C3, as stated, fails: a Sector whose name is the empty string is
    constructed. *)
Lemma Sector_empty_name_accepted :
  Sector.new {[ "name" := VStr ""; "slug" := VStr "marketing" ]}
  = Ok {| Sector.name := ""; Sector.slug := "marketing"; Sector.description := None |}.
Proof. vm_compute. reflexivity. Qed.

(** C3, amended: for every construction input in which a required text
    field (the name or slug of a Sector; the name, sector_slug or summary of
    a Tool; the sector_slug or headline of a Comparison) is missing, or is
    [None], a boolean, a number, a list or a dict, construction fails with a
    validation error that has an entry for that field, of kind missing,
    respectively string_type. Any text, the empty string included, is
    accepted for these fields: a construction that is given a text for such
    a field has no entry for that field in its validation error, whatever
    the other arguments are, and with texts for all the required fields and
    no other argument the record is constructed with these texts. *)
Theorem required_text_field_enforced `{Library} kwargs k :
  not_text kwargs k →
  (k ∈ ["name"; "slug"]%string →
   raises_at "Sector" k (text_error kwargs k) (Sector.new kwargs))
  ∧ (k ∈ ["name"; "sector_slug"; "summary"]%string →
     raises_at "Tool" k (text_error kwargs k) (Tool.new kwargs))
  ∧ (k ∈ ["sector_slug"; "headline"]%string →
     raises_at "Comparison" k (text_error kwargs k) (Comparison.new kwargs))
  ∧ (∀ kw k' s,
       text_arg kw k' s →
       (k' ∈ ["name"; "slug"]%string → ¬ has_entry_for k' (Sector.new kw))
       ∧ (k' ∈ ["name"; "sector_slug"; "summary"]%string →
          ¬ has_entry_for k' (Tool.new kw))
       ∧ (k' ∈ ["sector_slug"; "headline"]%string →
          ¬ has_entry_for k' (Comparison.new kw)))
  ∧ (∀ n s,
       Sector.new {[ "name" := VStr n; "slug" := VStr s ]}
       = Ok {| Sector.name := n; Sector.slug := s; Sector.description := None |})
  ∧ (∀ n s m,
       Tool.new {[ "name" := VStr n; "sector_slug" := VStr s; "summary" := VStr m ]}
       = Ok {| Tool.name := n; Tool.sector_slug := s; Tool.summary := m;
               Tool.strengths := []; Tool.limitations := []; Tool.website := None;
               Tool.pricing := None; Tool.rating := None |})
  ∧ (∀ s h,
       Comparison.new {[ "sector_slug" := VStr s; "headline" := VStr h ]}
       = Ok {| Comparison.sector_slug := s; Comparison.headline := h;
               Comparison.intro := None; Comparison.top_tools := [] |}).
Proof.
  intros Hn. split_and!.
  - intros Hk. by apply Sector_new_required.
  - intros Hk. by apply Tool_new_required.
  - intros Hk. by apply Comparison_new_required.
  - intros kw k' s Hs. split_and!; intros Hk.
    + by apply (Sector_new_text_accepted kw k' s).
    + by apply (Tool_new_text_accepted kw k' s).
    + by apply (Comparison_new_text_accepted kw k' s).
  - apply Sector_new_texts.
  - apply Tool_new_texts.
  - apply Comparison_new_texts.
Qed.

(** The amended C3 at a Sector constructed without a name. *)
Lemma required_text_field_enforced_witness :
  not_text {[ "slug" := VStr "marketing" ]} "name"
  ∧ raises_at "Sector" "name" missing (Sector.new {[ "slug" := VStr "marketing" ]}).
Proof.
  assert (not_text {[ "slug" := VStr "marketing" ]} "name") as Hn by exact I.
  split; [exact Hn |].
  apply (proj1 (@required_text_field_enforced strict_library
                  {[ "slug" := VStr "marketing" ]} "name" Hn)).
  apply list_elem_of_here.
Defined.

(** C4, as stated, fails: the required text fields, the rating and the
    website are not all that is validated. A Tool with its three required
    texts, no rating and no website, and the number 5 for its strengths is
    not constructed: the strengths are not a list. *)
Lemma Tool_strengths_not_a_list_refused :
  @Tool.new strict_library
    {[ "name" := VStr "Gong"; "sector_slug" := VStr "sales";
       "summary" := VStr "Revenue intelligence"; "strengths" := VInt 5 ]}
  = Raise (ValidationError "Tool" [{| loc := [Field "strengths"]; type := list_type |}]).
Proof. vm_compute. reflexivity. Qed.

(** C4, amended: a Tool whose required fields are text, whose strengths and
    limitations are each absent or a list of texts, whose pricing is absent,
    [None] or text, whose rating is absent, [None] or a number from 0 to 5,
    and whose website is absent, [None] or parses as a URL, is constructed,
    with the three texts as given; and with a rating that is a number
    outside 0 to 5, whatever the other arguments, construction fails with a
    validation error that has an entry for the rating. *)
Theorem Tool_new_rating_and_website `{Library} kwargs :
  (∀ n s m,
     text_arg kwargs "name" n → text_arg kwargs "sector_slug" s →
     text_arg kwargs "summary" m →
     text_list_arg kwargs "strengths" → text_list_arg kwargs "limitations" →
     optional_text_arg kwargs "pricing" →
     website_well_formed kwargs → rating_in_range kwargs →
     ∃ t, Tool.new kwargs = Ok t
          ∧ Tool.name t = n ∧ Tool.sector_slug t = s ∧ Tool.summary t = m)
  ∧ (rating_out_of_range kwargs →
     ∃ ty, raises_at "Tool" "rating" ty (Tool.new kwargs)).
Proof.
  split.
  - intros n s m Hn Hs Hm Hst Hli Hp Hw Hr. unfold Tool.new.
    rewrite (required_str_valid _ _ _ Hn), (required_str_valid _ _ _ Hs),
      (required_str_valid _ _ _ Hm).
    destruct (defaulted_text_list _ _ Hst) as [st ->].
    destruct (defaulted_text_list _ _ Hli) as [li ->].
    destruct (defaulted_website _ Hw) as [w ->].
    destruct (defaulted_optional_text _ _ Hp) as [p ->].
    destruct (defaulted_rating_in_range _ Hr) as [r ->].
    simpl. eexists. split; [reflexivity |]. done.
  - intros Hr. destruct (defaulted_rating_out_of_range _ Hr) as [ty Hty].
    exists ty. unfold Tool.new. auto with validation.
Qed.

(** The amended C4 at a Tool with rating 4.5 and a website, and at a
    rating of 5.5. *)
Lemma Tool_new_rating_and_website_witness :
  (∃ t, @Tool.new strict_library
          {[ "name" := VStr "Gong"; "sector_slug" := VStr "sales";
             "summary" := VStr "Revenue intelligence";
             "website" := VStr "https://www.gong.io"; "rating" := VFloat 4.5 ]} = Ok t
        ∧ Tool.name t = "Gong"%string ∧ Tool.sector_slug t = "sales"%string
        ∧ Tool.summary t = "Revenue intelligence"%string)
  ∧ (∃ ty, raises_at "Tool" "rating" ty
             (@Tool.new strict_library {[ "rating" := VFloat 5.5 ]})).
Proof.
  split.
  - apply (proj1 (@Tool_new_rating_and_website strict_library _));
      first [ reflexivity | exact I | (by eexists) | (by split) ].
  - apply (proj2 (@Tool_new_rating_and_website strict_library _)).
    vm_compute. intros [_ H5]. discriminate.
Defined.

(** C5: for every store, the seed on a configured store answers ok, and
    each of the three collections on its own is unchanged when it held a
    document and holds exactly its fixed records (5 sectors, 10 tools, 5
    comparisons) when it held none. *)
Theorem seed_content_per_collection `{Library} db st :
  let after := snd (seed_content (Some db) st) in
  fst (seed_content (Some db) st) = Ok status_ok
  ∧ collection after "sector"
    = match collection st "sector" with
      | [] => seed_sector_docs
      | _ :: _ => collection st "sector"
      end
  ∧ collection after "tool"
    = match collection st "tool" with
      | [] => seed_tool_docs
      | _ :: _ => collection st "tool"
      end
  ∧ collection after "comparison"
    = match collection st "comparison" with
      | [] => seed_comparison_docs
      | _ :: _ => collection st "comparison"
      end
  ∧ length seed_sector_docs = 5%nat ∧ length seed_tool_docs = 10%nat
  ∧ length seed_comparison_docs = 5%nat.
Proof.
  intros after. subst after. rewrite seed_content_run. cbn [fst snd].
  rewrite !collection_seeded
    by (repeat first [apply list_elem_of_here | apply list_elem_of_further]).
  split_and!; reflexivity.
Qed.


(** C7: when the store is not configured, the seed and the sector detail
    fail with status 500 and detail "Database not configured", for every
    slug, and the store and the log of its operations are as before: no
    collection was read or written. *)
Theorem unconfigured_seed_and_detail_fail `{Library} slug st :
  seed_content None st = (Raise (HTTPException 500 "Database not configured"), st)
  ∧ sector_detail None slug st
    = (Raise (HTTPException 500 "Database not configured"), st).
Proof. split; reflexivity. Qed.

(** C8: when the store is not configured, the sector listing returns the
    empty list and the search returns an empty result list, for every query,
    without an error and without an operation on the store. *)
Theorem unconfigured_reads_degrade `{Library} query st :
  list_sectors None st = (Ok (VList []), st)
  ∧ search_tools None query st = (Ok (VDict {[ "results" := VList [] ]}), st).
Proof. split; reflexivity. Qed.

(** C9: after the seed on a configured store whose three collections were
    empty, the detail of the sector engineering succeeds; its tools are
    exactly two, named GitHub Copilot and OpenAI o1, and its comparison is
    not null and has the headline AI for Software Development. *)
Theorem seeded_engineering_detail `{Library} db st :
  initially_empty st →
  ∃ sector tool1 tool2 comparison,
    fst (sector_detail (Some db) "engineering" (snd (seed_content (Some db) st)))
    = Ok (VDict {[ "sector" := sector;
                   "tools" := VList [VDict tool1; VDict tool2];
                   "comparison" := VDict comparison ]})
    ∧ tool1 !! "name" = Some (VStr "GitHub Copilot")
    ∧ tool2 !! "name" = Some (VStr "OpenAI o1")
    ∧ comparison !! "headline" = Some (VStr "AI for Software Development").
Proof.
  intros Hst. rewrite seed_content_run. cbn [fst snd]. rewrite sector_detail_run.
  destruct (seeded_initially_empty st Hst) as (-> & -> & ->).
  rewrite seed_engineering_sector, seed_engineering_tools, seed_engineering_comparison.
  cbn [fst snd]. unfold detail_response, engineering_tools.
  cbn [fmap list_fmap].
  eexists _, _, _, _. split; [reflexivity |].
  split_and!; reflexivity.
Qed.

(** C9 on the store without any collection. *)
Lemma seeded_engineering_detail_witness :
  initially_empty empty_store
  ∧ ∃ sector tool1 tool2 comparison,
      fst (@sector_detail strict_library (Some the_db) "engineering"
             (snd (@seed_content strict_library (Some the_db) empty_store)))
      = Ok (VDict {[ "sector" := sector;
                     "tools" := VList [VDict tool1; VDict tool2];
                     "comparison" := VDict comparison ]})
      ∧ tool1 !! "name" = Some (VStr "GitHub Copilot")
      ∧ tool2 !! "name" = Some (VStr "OpenAI o1")
      ∧ comparison !! "headline" = Some (VStr "AI for Software Development").
Proof.
  assert (initially_empty empty_store) as He by (by split_and!).
  split; [exact He |].
  exact (@seeded_engineering_detail strict_library the_db empty_store He).
Defined.

(** C10, as stated, fails: the empty pattern is found in every text, and
    in nothing else. On a store whose only tool document has a number for
    its name and no other field, the search with the empty query returns no
    document. *)
Lemma search_tools_empty_query_skips_numbers :
  collection numbered_store "tool" = [numbered]
  ∧ fst (@search_tools strict_library (Some the_db) {| q := "" |} numbered_store)
    = Ok (search_response []).
Proof. split; vm_compute; reflexivity. Qed.

(** C10, amended: on a configured store whose tool documents each hold a
    text under the name, the summary or the sector slug, the search with the
    empty query returns every tool document of the store: the empty query is
    handled as any other, and it is found in every text. *)
Theorem search_tools_empty_query `{Library} db st :
  (∀ d, d ∈ collection st "tool" → has_search_text d) →
  fst (search_tools (Some db) {| q := "" |} st)
  = Ok (search_response (collection st "tool")).
Proof.
  intros Hall.
  destruct (selects_search_literal "" eq_refl) as (p & Hp & Hm).
  rewrite (search_tools_run db {| q := "" |} st p Hp). simpl.
  rewrite (List_filter_decide p (search_match "")) by done.
  rewrite filter_all; [done |]. intros d Hd. by apply search_match_empty, Hall.
Qed.

(** C10 on the store whose only tool is Gong. *)
Lemma search_tools_empty_query_witness :
  (∀ d, d ∈ collection gong_store "tool" → has_search_text d)
  ∧ fst (@search_tools strict_library (Some the_db) {| q := "" |} gong_store)
    = Ok (search_response (collection gong_store "tool")).
Proof.
  assert (∀ d, d ∈ collection gong_store "tool" → has_search_text d) as Hall.
  { intros d Hd. apply list_elem_of_singleton in Hd as ->.
    exists "name"%string, "Gong"%string. split; [apply list_elem_of_here | reflexivity]. }
  split; [exact Hall |].
  exact (@search_tools_empty_query strict_library the_db gong_store Hall).
Defined.

(** * Further properties of the handlers and the models *)

(** ** What the read handlers do to the store *)

Lemma find_keeps_collections `{Library} db c f st :
  collections (snd (find db c f st)) = collections st.
Proof. unfold find, bind, record. simpl. by destruct (selects f). Qed.

Lemma find_one_keeps_collections `{Library} db c f st :
  collections (snd (find_one db c f st)) = collections st.
Proof. unfold find_one, bind, record. simpl. by destruct (selects f). Qed.

Lemma List_filter_sublist {A} (f : A → bool) (l : list A) :
  List.filter f l `sublist_of` l.
Proof.
  induction l as [| x l IH]; simpl; [constructor |].
  destruct (f x); by constructor.
Qed.

(** X1: the three read handlers never change a collection, whether the
    store is configured or not, for every slug and every query. *)
Theorem read_handlers_keep_store `{Library} db slug query st :
  collections (snd (list_sectors db st)) = collections st
  ∧ collections (snd (sector_detail db slug st)) = collections st
  ∧ collections (snd (search_tools db query st)) = collections st.
Proof.
  destruct db as [db |]; [| by split_and!].
  split_and!.
  - unfold list_sectors, database_bool, get_documents, bind, ret.
    by rewrite find_all_run.
  - rewrite sector_detail_run.
    by destruct (head (filter (field_is "slug" slug) (collection st "sector"))).
  - unfold search_tools, bind.
    pose proof (find_keeps_collections db "tool" (search_query (q query)) st) as Hf.
    unfold search_query in Hf.
    by destruct (find db "tool" _ st) as [[tools | e] st'].
Qed.

(** X2: on a configured store the sector listing reads the sector
    collection once and returns every document of it, in the order of the
    collection, each shaped as id, name, slug and description, where the id
    is the text form of the identifier of the document. (The truth value of
    the handle and the reading of the documents are those of the
    specification.) *)
Theorem list_sectors_configured_lists `{Library} db st :
  list_sectors (Some db) st
  = (Ok (VList ((λ d, VDict {[ "id" := VStr (str (get d "_id"));
                               "name" := get d "name"; "slug" := get d "slug";
                               "description" := get d "description" ]})
                <$> collection st "sector")),
     logged (OpFind "sector" All) st).
Proof.
  unfold list_sectors, database_bool, get_documents, bind, ret.
  by rewrite find_all_run.
Qed.

Lemma find_rejected `{Library} db c f st :
  selects f = None →
  find db c f st = (Raise OperationFailure, logged (OpFind c f) st).
Proof. intros Hp. unfold find, bind, record. simpl. by rewrite Hp. Qed.

Lemma selects_search_rejected `{Library} q :
  regex_matcher q "i" = None → selects (search_query q) = None.
Proof. intros Hr. unfold search_query. cbn [selects mapM]. by rewrite Hr. Qed.

Lemma search_tools_rejected `{Library} db query st :
  selects (search_query (q query)) = None →
  search_tools (Some db) query st
  = (Raise OperationFailure, logged (OpFind "tool" (search_query (q query))) st).
Proof.
  intros Hp. unfold search_tools. fold (search_query (q query)).
  unfold bind. by rewrite (find_rejected _ _ _ _ Hp).
Qed.

(** X3: the search has no handler for an error of the store: when the
    store rejects the pattern of the query, the search raises that error,
    after one attempt and without a result. *)
Theorem search_tools_propagates_rejection `{Library} db query st :
  regex_matcher (q query) "i" = None →
  search_tools (Some db) query st
  = (Raise OperationFailure, logged (OpFind "tool" (search_query (q query))) st).
Proof.
  intros Hr. by apply search_tools_rejected, selects_search_rejected.
Qed.

(** X3 at the query of one opening parenthesis, for the engine that
    rejects what is outside the fragment. *)
Lemma search_tools_propagates_rejection_witness :
  @regex_matcher strict_library "(" "i" = None
  ∧ @search_tools strict_library (Some the_db) {| q := "(" |} gong_store
    = (Raise OperationFailure, logged (OpFind "tool" (search_query "(")) gong_store).
Proof.
  assert (@regex_matcher strict_library "(" "i" = None) as Hr by reflexivity.
  split; [exact Hr |].
  exact (@search_tools_propagates_rejection strict_library the_db {| q := "(" |}
           gong_store Hr).
Defined.

(** X4: whatever the query, the search either raises the store's rejection
    of the pattern or returns documents of the tool collection, each at most
    once per stored copy and in the order of the collection, shaped as name,
    sector_slug, summary, rating and website. *)
Theorem search_tools_results_are_tools `{Library} db query st :
  fst (search_tools (Some db) query st) = Raise OperationFailure
  ∨ ∃ tools, tools `sublist_of` collection st "tool"
             ∧ fst (search_tools (Some db) query st) = Ok (search_response tools).
Proof.
  destruct (selects (search_query (q query))) as [p |] eqn:Hp.
  - right. exists (List.filter p (collection st "tool")).
    split; [apply List_filter_sublist |].
    by rewrite (search_tools_run db query st p Hp).
  - left. by rewrite (search_tools_rejected db query st Hp).
Qed.

(** ** How the search depends on the query *)

Lemma search_tools_plain_run `{Library} db query st :
  plain_query (q query) →
  search_tools (Some db) query st
  = (Ok (search_response (filter (search_match (q query)) (collection st "tool"))),
     logged (OpFind "tool" (search_query (q query))) st).
Proof.
  intros Hq%plain_query_literal.
  destruct (selects_search_literal (q query) Hq) as (p & Hp & Hm).
  rewrite (search_tools_run db query st p Hp).
  by rewrite (List_filter_decide p (search_match (q query))).
Qed.














(** ** The seed from any state *)

Lemma collection_seeded_any st c :
  collection (seeded st) c
  = if bool_decide (c ∈ ["sector"; "tool"; "comparison"]%string)
    then match collection st c with [] => seed_docs c | _ :: _ => collection st c end
    else collection st c.
Proof.
  destruct (bool_decide (c ∈ ["sector"; "tool"; "comparison"]%string)) eqn:Hc.
  - apply bool_decide_eq_true in Hc. by apply collection_seeded.
  - apply bool_decide_eq_false in Hc.
    unfold seeded. rewrite !collection_seed_step.
    repeat (destruct (decide (_ = c)) as [<- |];
            [exfalso; apply Hc; repeat first [apply list_elem_of_here | apply list_elem_of_further] |]).
    reflexivity.
Qed.

Lemma seeded_collections_nonempty st :
  collection (seeded st) "sector" ≠ [] ∧ collection (seeded st) "tool" ≠ []
  ∧ collection (seeded st) "comparison" ≠ [].
Proof.
  rewrite !collection_seeded
    by (repeat first [apply list_elem_of_here | apply list_elem_of_further]).
  split_and!.
  - by destruct (collection st "sector").
  - by destruct (collection st "tool").
  - by destruct (collection st "comparison").
Qed.

(** X8: the seed is idempotent from every state of a configured store:
    after one seed, a second seed answers ok, lists the three collections
    and inserts nothing, whatever the collections held before the first. *)
Theorem seed_content_idempotent `{Library} db st :
  let once := snd (seed_content (Some db) st) in
  let twice := seed_content (Some db) once in
  fst twice = Ok status_ok
  ∧ collections (snd twice) = collections once
  ∧ oplog (snd twice)
    = oplog once ++ [OpFind "sector" All; OpFind "tool" All; OpFind "comparison" All].
Proof.
  intros once twice. subst once twice. rewrite !seed_content_run. cbn [fst snd].
  destruct (seeded_collections_nonempty st) as (Hs & Ht & Hc).
  by rewrite (seeded_nonempty (seeded st)).
Qed.

(** X9: the seed only adds documents, and only to its three collections:
    every collection keeps the documents it had, in their order, at its
    front, and a collection other than sector, tool and comparison is left as
    it was. *)
Theorem seed_content_keeps_documents `{Library} db st c :
  let after := snd (seed_content (Some db) st) in
  collection st c `prefix_of` collection after c
  ∧ (c ∉ ["sector"; "tool"; "comparison"]%string → collection after c = collection st c).
Proof.
  intros after. subst after. rewrite seed_content_run. cbn [fst snd].
  rewrite collection_seeded_any. split.
  - destruct (bool_decide _); [| done].
    destruct (collection st c); [apply prefix_nil | done].
  - intros Hc. by rewrite bool_decide_eq_false_2.
Qed.

(** X9 at a collection of another name. *)
Lemma seed_content_keeps_documents_witness :
  (("user" : string) ∉ ["sector"; "tool"; "comparison"]%string)
  ∧ collection (snd (@seed_content strict_library (Some the_db) gong_store)) "user"
    = collection gong_store "user".
Proof.
  assert (("user" : string) ∉ ["sector"; "tool"; "comparison"]%string) as Hn.
  { intros Hin. repeat (apply elem_of_cons in Hin as [Hin | Hin]; [discriminate Hin |]).
    by apply elem_of_nil in Hin. }
  split; [exact Hn |].
  exact (proj2 (@seed_content_keeps_documents strict_library the_db gong_store "user") Hn).
Defined.

(** ** The seeded store *)

Lemma field_is_sector_doc slug n x d :
  field_is "slug" slug (sector_doc n x d) ↔ x = slug.
Proof. reflexivity. Qed.

(** X10: after the seed on a configured store whose three collections were
    empty, the detail of a slug that is none of the five seeded slugs
    answers 404 with detail "Sector not found". *)
Theorem seeded_unknown_slug_404 `{Library} db slug st :
  initially_empty st → slug ∉ seed_slugs →
  fst (sector_detail (Some db) slug (snd (seed_content (Some db) st)))
  = Raise (HTTPException 404 "Sector not found").
Proof.
  intros Hst Hs. rewrite seed_content_run. cbn [fst snd]. rewrite sector_detail_run.
  destruct (seeded_initially_empty st Hst) as (-> & _ & _).
  assert (filter (field_is "slug" slug) seed_sector_docs = []) as ->; [| done].
  unfold seed_sector_docs.
  repeat (rewrite filter_cons_False;
          [| rewrite field_is_sector_doc; intros <-; apply Hs; unfold seed_slugs;
             repeat first [apply list_elem_of_here | apply list_elem_of_further]]).
  reflexivity.
Qed.

(** X10 at the slug does-not-exist on the store without any collection. *)
Lemma seeded_unknown_slug_404_witness :
  initially_empty empty_store ∧ (("does-not-exist" : string) ∉ seed_slugs)
  ∧ fst (@sector_detail strict_library (Some the_db) "does-not-exist"
           (snd (@seed_content strict_library (Some the_db) empty_store)))
    = Raise (HTTPException 404 "Sector not found").
Proof.
  assert (initially_empty empty_store) as He by (by split_and!).
  assert (("does-not-exist" : string) ∉ seed_slugs) as Hn.
  { intros Hin. unfold seed_slugs in Hin.
    repeat (apply elem_of_cons in Hin as [Hin | Hin]; [discriminate Hin |]).
    by apply elem_of_nil in Hin. }
  split_and!; [exact He | exact Hn |].
  exact (@seeded_unknown_slug_404 strict_library the_db "does-not-exist" empty_store He Hn).
Defined.

(** The filters over the seed documents, element by element. *)
Ltac filter_eval :=
  repeat filter_step; rewrite ?filter_nil.

(** X11: after the seed on a configured store whose three collections
    were empty, the detail of each of the five seeded slugs succeeds with
    the sector of that slug, exactly two tools, and a comparison whose ranked
    tools are the names of these two tools. *)
Theorem seeded_sectors_are_consistent `{Library} db slug st :
  initially_empty st → slug ∈ seed_slugs →
  ∃ sector tool1 tool2 comparison name1 name2 top_tools,
    fst (sector_detail (Some db) slug (snd (seed_content (Some db) st)))
    = Ok (VDict {[ "sector" := VDict sector;
                   "tools" := VList [VDict tool1; VDict tool2];
                   "comparison" := VDict comparison ]})
    ∧ sector !! "slug" = Some (VStr slug)
    ∧ tool1 !! "name" = Some (VStr name1)
    ∧ tool2 !! "name" = Some (VStr name2)
    ∧ comparison !! "top_tools" = Some (strs top_tools)
    ∧ top_tools ≡ₚ [name1; name2].
Proof.
  intros Hst Hs. rewrite seed_content_run. cbn [fst snd]. rewrite sector_detail_run.
  destruct (seeded_initially_empty st Hst) as (-> & -> & ->).
  unfold seed_slugs in Hs.
  repeat (apply elem_of_cons in Hs as [-> | Hs]); [| | | | | by apply elem_of_nil in Hs];
    unfold seed_sector_docs, seed_tool_docs, seed_comparison_docs;
    filter_eval; cbn [head fst snd]; unfold detail_response;
    cbn [fmap list_fmap];
    eexists _, _, _, _, _, _, _;
    (split_and!; [reflexivity .. | first [reflexivity | apply perm_swap]]).
Qed.

(** X11 at the slug sales on the store without any collection. *)
Lemma seeded_sectors_are_consistent_witness :
  initially_empty empty_store ∧ ("sales" : string) ∈ seed_slugs
  ∧ ∃ sector tool1 tool2 comparison name1 name2 top_tools,
      fst (@sector_detail strict_library (Some the_db) "sales"
             (snd (@seed_content strict_library (Some the_db) empty_store)))
      = Ok (VDict {[ "sector" := VDict sector;
                     "tools" := VList [VDict tool1; VDict tool2];
                     "comparison" := VDict comparison ]})
      ∧ sector !! "slug" = Some (VStr "sales")
      ∧ tool1 !! "name" = Some (VStr name1)
      ∧ tool2 !! "name" = Some (VStr name2)
      ∧ comparison !! "top_tools" = Some (strs top_tools)
      ∧ top_tools ≡ₚ [name1; name2].
Proof.
  assert (initially_empty empty_store) as He by (by split_and!).
  assert (("sales" : string) ∈ seed_slugs) as Hs
    by (unfold seed_slugs; repeat first [apply list_elem_of_here | apply list_elem_of_further]).
  split_and!; [exact He | exact Hs |].
  exact (@seeded_sectors_are_consistent strict_library the_db "sales" empty_store He Hs).
Defined.

(** One element of a list under the filter of the search, decided by
    evaluation. *)
Ltac search_step :=
  first
    [ rewrite filter_cons_True by (vm_compute; auto)
    | rewrite filter_cons_False
        by (let Hx := fresh in
            intros Hx; vm_compute in Hx; destruct Hx as [Hx | [Hx | Hx]];
            discriminate Hx) ].

(** X12: after the seed on a configured store whose three collections
    were empty, the search for copilot returns exactly one result, named
    GitHub Copilot, and the search for xyz-nomatch returns no result. *)
Theorem seeded_search_copilot `{Library} db st :
  initially_empty st →
  let seeded_store := snd (seed_content (Some db) st) in
  (∃ result,
     fst (search_tools (Some db) {| q := "copilot" |} seeded_store)
     = Ok (VDict {[ "results" := VList [VDict result] ]})
     ∧ result !! "name" = Some (VStr "GitHub Copilot"))
  ∧ fst (search_tools (Some db) {| q := "xyz-nomatch" |} seeded_store)
    = Ok (VDict {[ "results" := VList [] ]}).
Proof.
  intros Hst seeded_store. subst seeded_store. rewrite seed_content_run. cbn [fst snd].
  rewrite !search_tools_plain_run by reflexivity. cbn [fst q].
  destruct (seeded_initially_empty st Hst) as (_ & -> & _).
  unfold seed_tool_docs. split.
  - do 10 search_step. rewrite filter_nil. unfold search_response. cbn [fmap list_fmap].
    eexists. split; reflexivity.
  - do 10 search_step. rewrite filter_nil. reflexivity.
Qed.

(** X12 on the store without any collection. *)
Lemma seeded_search_copilot_witness :
  initially_empty empty_store
  ∧ fst (@search_tools strict_library (Some the_db) {| q := "xyz-nomatch" |}
           (snd (@seed_content strict_library (Some the_db) empty_store)))
    = Ok (VDict {[ "results" := VList [] ]}).
Proof.
  assert (initially_empty empty_store) as He by (by split_and!).
  split; [exact He |].
  exact (proj2 (@seeded_search_copilot strict_library the_db empty_store He)).
Defined.

(** ** More on the models *)

Lemma construct_ok_inv {A} title (c : checked A) a :
  Validator.construct title c = Ok a → c = Valid a.
Proof. destruct c; simpl; congruence. Qed.

Lemma ap_valid_inv {A B} (f : checked (A → B)) (x : checked A) b :
  Validator.ap f x = Valid b → ∃ g a, f = Valid g ∧ x = Valid a ∧ b = g a.
Proof.
  destruct f as [g | e], x as [a | e']; simpl; try discriminate.
  intros [= <-]. by exists g, a.
Qed.

Lemma map_valid_inv {A B} (g : A → B) (c : checked A) b :
  Validator.map g c = Valid b → ∃ a, c = Valid a ∧ b = g a.
Proof. destruct c as [a | e]; simpl; try discriminate. intros [= <-]. by exists a. Qed.

Lemma required_str_valid_inv kwargs k s :
  Validator.required Validator.str kwargs k = Valid s → kwargs !! k = Some (VStr s).
Proof.
  unfold Validator.required, Validator.str.
  destruct (kwargs !! k) as [[| | | | s' | |] |]; try discriminate. by intros [= ->].
Qed.

Lemma defaulted_optional_text_inv kwargs k o :
  Validator.defaulted (Validator.optional Validator.str) kwargs k None = Valid o →
  optional_text_arg kwargs k.
Proof.
  unfold Validator.defaulted, optional_text_arg.
  by destruct (kwargs !! k) as [[| | | | s' | |] |].
Qed.

Lemma items_str_inv l i vs ss :
  Validator.items Validator.str l i vs = Valid ss → vs = VStr <$> ss.
Proof.
  revert i ss. induction vs as [| v vs IH]; intros i ss; simpl.
  - by intros [= <-].
  - intros (g & tl & Hg & Htl & ->)%ap_valid_inv.
    apply map_valid_inv in Hg as (s & Hs & ->).
    destruct v; try discriminate Hs. injection Hs as ->.
    by rewrite (IH _ _ Htl).
Qed.

Lemma defaulted_text_list_inv kwargs k ss :
  Validator.defaulted (Validator.list_of Validator.str) kwargs k [] = Valid ss →
  text_list_arg kwargs k.
Proof.
  unfold Validator.defaulted, text_list_arg.
  destruct (kwargs !! k) as [[| | | | | l |] |]; try done.
  intros Hi. exists ss. by apply items_str_inv in Hi.
Qed.

Lemma bounded_valid_inv l f r :
  Validator.bounded 0 5 l f = Valid r →
  r = f ∧ PrimFloat.leb 0 f = true ∧ PrimFloat.leb f 5 = true.
Proof.
  unfold Validator.bounded.
  change (Validator.float_of_small 5) with 5%float.
  change (Validator.float_of_small 0) with 0%float.
  destruct (PrimFloat.leb f 5); simpl; [| discriminate].
  destruct (PrimFloat.leb 0 f); simpl; [| discriminate].
  by intros [= <-].
Qed.

Lemma float_between_valid_inv `{Library} l v r :
  Validator.float_between 0 5 l v = Valid r →
  PrimFloat.leb 0 r = true ∧ PrimFloat.leb r 5 = true.
Proof.
  destruct v as [| b | z | f | s | |]; simpl; try discriminate.
  - intros (-> & H0 & H5)%bounded_valid_inv. done.
  - destruct (Validator.int_fits_float z); simpl; [| discriminate].
    destruct (z <=? 5) eqn:H5; simpl; [| discriminate].
    destruct (0 <=? z) eqn:H0; simpl; [| discriminate].
    intros [= <-].
    assert (z = 0 ∨ z = 1 ∨ z = 2 ∨ z = 3 ∨ z = 4 ∨ z = 5) as Hc by lia.
    destruct Hc as [-> | [-> | [-> | [-> | [-> | ->]]]]]; by split.
  - intros (-> & H0 & H5)%bounded_valid_inv. done.
  - destruct (float_of_str s); [| discriminate].
    intros (-> & H0 & H5)%bounded_valid_inv. done.
Qed.

Lemma defaulted_rating_inv `{Library} kwargs o :
  Validator.defaulted (Validator.optional (Validator.float_between 0 5))
    kwargs "rating" None = Valid o →
  rating_bounded o.
Proof.
  unfold Validator.defaulted, Validator.optional.
  destruct (kwargs !! "rating") as [v |]; [| by intros [= <-]].
  destruct v; try (by intros [= <-]);
    intros (r & Hr & ->)%map_valid_inv; by apply float_between_valid_inv in Hr.
Qed.

(** X13: every Tool that is constructed has a rating within 0 and 5, or
    none: whatever the keyword arguments (numbers, booleans, text), a
    construction that succeeds yields a rating that is [None] or a double
    between 0 and 5, never a NaN. *)
Theorem Tool_new_rating_invariant `{Library} kwargs t :
  Tool.new kwargs = Ok t → rating_bounded (Tool.rating t).
Proof.
  unfold Tool.new. intros Hc. apply construct_ok_inv in Hc.
  apply ap_valid_inv in Hc. destruct Hc as (g & r & Hc & Hr & ->).
  apply defaulted_rating_inv in Hr.
  repeat (apply ap_valid_inv in Hc; destruct Hc as (? & ? & Hc & _ & ->)).
  by injection Hc as <-.
Qed.

(** X13 at the Tool Gong with rating 4.5. *)
Lemma Tool_new_rating_invariant_witness :
  @Tool.new strict_library
    {[ "name" := VStr "Gong"; "sector_slug" := VStr "sales";
       "summary" := VStr "Revenue intelligence"; "rating" := VFloat 4.5 ]}
  = Ok {| Tool.name := "Gong"; Tool.sector_slug := "sales";
          Tool.summary := "Revenue intelligence"; Tool.strengths := [];
          Tool.limitations := []; Tool.website := None; Tool.pricing := None;
          Tool.rating := Some 4.5%float |}
  ∧ rating_bounded (Some 4.5%float).
Proof.
  assert (@Tool.new strict_library
            {[ "name" := VStr "Gong"; "sector_slug" := VStr "sales";
               "summary" := VStr "Revenue intelligence"; "rating" := VFloat 4.5 ]}
          = Ok {| Tool.name := "Gong"; Tool.sector_slug := "sales";
                  Tool.summary := "Revenue intelligence"; Tool.strengths := [];
                  Tool.limitations := []; Tool.website := None; Tool.pricing := None;
                  Tool.rating := Some 4.5%float |}) as Hn by reflexivity.
  split; [exact Hn |].
  exact (@Tool_new_rating_invariant strict_library _ _ Hn).
Defined.

(** X14: a keyword argument that is not a field of the model is ignored:
    adding it, or changing it, does not change the outcome of the
    construction of a Sector, a Tool or a Comparison. *)
Theorem unknown_arguments_ignored `{Library} kwargs k v :
  (k ∉ ["name"; "slug"; "description"]%string →
   Sector.new (<[k := v]> kwargs) = Sector.new kwargs)
  ∧ (k ∉ ["name"; "sector_slug"; "summary"; "strengths"; "limitations"; "website";
          "pricing"; "rating"]%string →
     Tool.new (<[k := v]> kwargs) = Tool.new kwargs)
  ∧ (k ∉ ["sector_slug"; "headline"; "intro"; "top_tools"]%string →
     Comparison.new (<[k := v]> kwargs) = Comparison.new kwargs).
Proof.
  split_and!; intros Hk;
    unfold Sector.new, Tool.new, Comparison.new, Validator.required, Validator.defaulted;
    rewrite !lookup_insert_ne
      by (intros ->; apply Hk;
          repeat first [apply list_elem_of_here | apply list_elem_of_further]);
    reflexivity.
Qed.

(** X14 at a Sector given a colour. *)
Lemma unknown_arguments_ignored_witness :
  (("colour" : string) ∉ ["name"; "slug"; "description"]%string)
  ∧ Sector.new (<["colour" := VStr "red"]> {[ "name" := VStr "Sales" ]})
    = Sector.new {[ "name" := VStr "Sales" ]}.
Proof.
  assert (("colour" : string) ∉ ["name"; "slug"; "description"]%string) as Hn.
  { intros Hin. repeat (apply elem_of_cons in Hin as [Hin | Hin]; [discriminate Hin |]).
    by apply elem_of_nil in Hin. }
  split; [exact Hn |].
  exact (proj1 (@unknown_arguments_ignored strict_library
                  {[ "name" := VStr "Sales" ]} "colour" (VStr "red")) Hn).
Defined.

(** X15: the dict of the fields of a model is accepted by the model and
    gives the same instance back: always for a Sector and a Comparison, and
    for a Tool whose rating is in range and whose website, in its serialised
    form, parses to itself. *)
Theorem dump_then_construct `{Library} (s : Sector.t) (c : Comparison.t) (t : Tool.t) :
  Sector.new (model_dump s) = Ok s
  ∧ Comparison.new (model_dump c) = Ok c
  ∧ (website_reparses (Tool.website t) → rating_bounded (Tool.rating t) →
     Tool.new (model_dump t) = Ok t).
Proof.
  split_and!.
  - destruct s as [n sl [d |]]; reflexivity.
  - destruct c as [sl h i tt].
    unfold model_dump, Comparison_model, Comparison.dump, Comparison.new,
      Validator.required, Validator.defaulted.
    cbn [Comparison.sector_slug Comparison.headline Comparison.intro Comparison.top_tools].
    change (?kw !! "sector_slug") with (Some (VStr sl)).
    change (?kw !! "headline") with (Some (VStr h)).
    change (?kw !! "intro") with (Some (dump_optional VStr i)).
    change (?kw !! "top_tools") with (Some (VList (VStr <$> tt))).
    simpl. rewrite items_str_texts. by destruct i.
  - destruct t as [n sl m st li w p r]. cbn [Tool.website Tool.rating].
    intros Hw Hr.
    unfold model_dump, Tool_model, Tool.dump, Tool.new,
      Validator.required, Validator.defaulted.
    cbn [Tool.name Tool.sector_slug Tool.summary Tool.strengths Tool.limitations
         Tool.website Tool.pricing Tool.rating].
    change (?kw !! "name") with (Some (VStr n)).
    change (?kw !! "sector_slug") with (Some (VStr sl)).
    change (?kw !! "summary") with (Some (VStr m)).
    change (?kw !! "strengths") with (Some (VList (VStr <$> st))).
    change (?kw !! "limitations") with (Some (VList (VStr <$> li))).
    change (?kw !! "website")
      with (Some (dump_optional (λ u, VStr (HttpUrl.text u)) w)).
    change (?kw !! "pricing") with (Some (dump_optional VStr p)).
    change (?kw !! "rating") with (Some (dump_optional VFloat r)).
    simpl. rewrite !items_str_texts.
    destruct w as [u |], p as [p |]; simpl in *; rewrite ?Hw;
      (destruct r as [r |]; simpl in *;
       [destruct Hr as [H0 H5]; rewrite (bounded_in_range _ _ H0 H5) |];
       reflexivity).
Qed.

(** X15 at the Tool Gong with rating 4.5 and no website. *)
Lemma dump_then_construct_witness :
  let gong_tool :=
    {| Tool.name := "Gong"; Tool.sector_slug := "sales";
       Tool.summary := "Revenue intelligence"; Tool.strengths := ["Call analysis"];
       Tool.limitations := []; Tool.website := None; Tool.pricing := None;
       Tool.rating := Some 4.5%float |} in
  @website_reparses strict_library (Tool.website gong_tool)
  ∧ rating_bounded (Tool.rating gong_tool)
  ∧ @Tool.new strict_library (model_dump gong_tool) = Ok gong_tool.
Proof.
  intros gong_tool.
  assert (@website_reparses strict_library (Tool.website gong_tool)) as Hw by exact I.
  assert (rating_bounded (Tool.rating gong_tool)) as Hr by (by split).
  split_and!; [exact Hw | exact Hr |].
  exact (proj2 (proj2 (@dump_then_construct strict_library
           {| Sector.name := ""; Sector.slug := ""; Sector.description := None |}
           {| Comparison.sector_slug := ""; Comparison.headline := "";
              Comparison.intro := None; Comparison.top_tools := [] |}
           gong_tool)) Hw Hr).
Defined.

(** X16: among keyword arguments that are [None], booleans, numbers, text,
    lists or dicts (the values of this development; bytes, tuples and other
    objects are not covered), the construction of a Sector succeeds exactly
    when name and slug are text and description is absent, [None] or text;
    the construction of a Comparison succeeds exactly when sector_slug and
    headline are text, intro is absent, [None] or text, and top_tools is
    absent or a list of texts. *)
Theorem Sector_and_Comparison_accepted_iff kwargs :
  ((∃ s, Sector.new kwargs = Ok s)
   ↔ (∃ n, text_arg kwargs "name" n) ∧ (∃ sl, text_arg kwargs "slug" sl)
     ∧ optional_text_arg kwargs "description")
  ∧ ((∃ c, Comparison.new kwargs = Ok c)
     ↔ (∃ sl, text_arg kwargs "sector_slug" sl) ∧ (∃ h, text_arg kwargs "headline" h)
       ∧ optional_text_arg kwargs "intro" ∧ text_list_arg kwargs "top_tools").
Proof.
  split; split.
  - intros [s Hs]. unfold Sector.new in Hs. apply construct_ok_inv in Hs.
    apply ap_valid_inv in Hs. destruct Hs as (? & ? & Hs & Hd & ->).
    apply ap_valid_inv in Hs. destruct Hs as (? & ? & Hs & Hsl & ->).
    apply ap_valid_inv in Hs. destruct Hs as (? & ? & Hs & Hn & ->).
    split_and!.
    + eexists. by apply required_str_valid_inv.
    + eexists. by apply required_str_valid_inv.
    + by apply defaulted_optional_text_inv in Hd.
  - intros ([n Hn] & [sl Hsl] & Hd). unfold Sector.new.
    rewrite (required_str_valid _ _ _ Hn), (required_str_valid _ _ _ Hsl).
    destruct (defaulted_optional_text _ _ Hd) as [d ->]. simpl. by eexists.
  - intros [c Hc]. unfold Comparison.new in Hc. apply construct_ok_inv in Hc.
    apply ap_valid_inv in Hc. destruct Hc as (? & ? & Hc & Ht & ->).
    apply ap_valid_inv in Hc. destruct Hc as (? & ? & Hc & Hi & ->).
    apply ap_valid_inv in Hc. destruct Hc as (? & ? & Hc & Hh & ->).
    apply ap_valid_inv in Hc. destruct Hc as (? & ? & Hc & Hsl & ->).
    split_and!.
    + eexists. by apply required_str_valid_inv.
    + eexists. by apply required_str_valid_inv.
    + by apply defaulted_optional_text_inv in Hi.
    + by apply defaulted_text_list_inv in Ht.
  - intros ([sl Hsl] & [h Hh] & Hi & Ht). unfold Comparison.new.
    rewrite (required_str_valid _ _ _ Hsl), (required_str_valid _ _ _ Hh).
    destruct (defaulted_optional_text _ _ Hi) as [i ->].
    destruct (defaulted_text_list _ _ Ht) as [tt ->]. simpl. by eexists.
Qed.

(** ** The diagnostic report *)

(** X17: the diagnostic report always has the same six keys and reports a
    running backend, and its database field never keeps its first value
    "Not Available"; without a configured store it reads "Available but not
    initialized", whatever the environment and the listing, with no
    collection listed. *)
Theorem test_database_report db environ listing_outcome :
  let report := test_database db environ listing_outcome in
  dom report
  = ({[ "backend"; "database"; "database_url"; "database_name";
        "connection_status"; "collections" ]} : gset string)
  ∧ report !! "backend" = Some (VStr "✅ Running")
  ∧ report !! "database" ≠ Some (VStr "❌ Not Available")
  ∧ test_database None environ listing_outcome !! "database"
    = Some (VStr "⚠️  Available but not initialized")
  ∧ test_database None environ listing_outcome !! "connection_status"
    = Some (VStr "Not Connected")
  ∧ test_database None environ listing_outcome !! "collections" = Some (VList []).
Proof.
  intros report. subst report. split_and!.
  - unfold test_database. destruct db as [db |], listing_outcome as [names | e];
      rewrite !dom_insert_L, dom_singleton_L; set_solver.
  - by destruct db as [db |], listing_outcome as [names | e].
  - destruct db as [db |], listing_outcome as [names | e];
      unfold test_database; rewrite lookup_insert_eq; discriminate.
  - reflexivity.
  - reflexivity.
  - reflexivity.
Qed.

(** X18: the handler reads DATABASE_URL only to tell whether it is set:
    for one and the same outcome of the listing of the collections, any two
    values that are not empty give the same report. (What the driver puts
    into the text of an exception is part of the outcome of the listing.) *)
Theorem test_database_url_as_flag db environ listing_outcome (u u' : string) :
  u ≠ ""%string → u' ≠ ""%string →
  test_database db (<["DATABASE_URL" := u]> environ) listing_outcome
  = test_database db (<["DATABASE_URL" := u']> environ) listing_outcome.
Proof.
  intros Hu Hu'. unfold test_database, getenv.
  rewrite !lookup_insert_eq, !lookup_insert_ne by done.
  unfold env_truthy.
  by rewrite (proj2 (String.eqb_neq u "") Hu), (proj2 (String.eqb_neq u' "") Hu').
Qed.

(** X18 at two URLs of a store. *)
Lemma test_database_url_as_flag_witness :
  ("mongodb://a" : string) ≠ ""%string ∧ ("mongodb://b" : string) ≠ ""%string
  ∧ test_database (Some the_db) (<["DATABASE_URL" := "mongodb://a"%string]> ∅) (Names [])
    = test_database (Some the_db) (<["DATABASE_URL" := "mongodb://b"%string]> ∅) (Names []).
Proof.
  assert (("mongodb://a" : string) ≠ ""%string) as Ha by discriminate.
  assert (("mongodb://b" : string) ≠ ""%string) as Hb by discriminate.
  split_and!; [exact Ha | exact Hb |].
  exact (test_database_url_as_flag (Some the_db) ∅ (Names []) _ _ Ha Hb).
Defined.

(** X19: with a configured store, the report lists the first ten names of
    the listing, in its order and no more, and reads "Connected & Working";
    when the listing raises, the report lists no collection and shows the
    first characters of the text of the exception, at most 80 of them (a
    character beyond ASCII counts as one). In both cases the connection
    status is "Connected". *)
Theorem test_database_listing db environ :
  (∀ names,
     let report := test_database (Some db) environ (Names names) in
     report !! "collections" = Some (strs (take 10 names))
     ∧ (length (take 10 names) ≤ 10)%nat
     ∧ take 10 names `prefix_of` names
     ∧ report !! "database" = Some (VStr "✅ Connected & Working")
     ∧ report !! "connection_status" = Some (VStr "Connected"))
  ∧ (∀ e,
       let report := test_database (Some db) environ (ListingFails e) in
       report !! "collections" = Some (VList [])
       ∧ (∃ shown,
            report !! "database"
            = Some (VStr ("⚠️  Connected but Error: " +:+ Text.join shown))
            ∧ shown = take 80 (Text.chars e)
            ∧ (length shown ≤ 80)%nat
            ∧ shown `prefix_of` Text.chars e)
       ∧ report !! "connection_status" = Some (VStr "Connected")).
Proof.
  split.
  - intros names report. subst report. split_and!; try reflexivity.
    + rewrite length_take. lia.
    + apply prefix_take.
  - intros e report. subst report. split_and!; try reflexivity.
    exists (take 80 (Text.chars e)).
    split_and!; [reflexivity | reflexivity | rewrite length_take; lia | apply prefix_take].
Qed.
